(** * aioeXVHP: the client chains of [aioexvhp/client.py]

    A shallow embedding of the asynchronous clients of [client.py] and the
    proofs of their chaining behaviour.

    Every method of the source is a short sequence of [await]ed calls on a
    shared [aiohttp] session.  A method is embedded as a finite interaction
    tree ([Prog]): each [await self.__session.<verb>(...)] is a node that
    carries the request and continues with the response, a [raise] (or a
    failing subscript) ends the tree with the exception, [return] ends it
    with a value.  A tree is run against a [Server], any function from the
    trace so far and the request to a response, and yields the trace of the
    calls that left the process together with the outcome.  "No further
    request is issued" is then a statement about that trace.

    Outside the model: transport failures of the session (a request that
    is sent always gets some response), the session's own headers, and
    floating point
    numbers inside JSON documents.  The [upload_from_file] wrappers, which
    open a local file and delegate, are not embedded. *)

From Stdlib Require Import ZArith Strings.String Strings.Ascii Strings.Byte.
From stdpp Require Import base option list strings gmap.

Set Warnings "-register-all".
Open Scope string_scope.
Open Scope Z_scope.

(** ** Python values *)

(** What [await res.json()] yields, and what the [json=] argument of a
    request takes: [dict] is a finite map with string keys. *)
Inductive JSON : Type :=
| JNull
| JBool (b : bool)
| JNum (n : Z)
| JStr (s : string)
| JArr (l : list JSON)
| JObj (m : gmap string JSON).

(** The exceptions the modelled code can raise. [ValueError] is the only
    one the source raises itself; the others come from subscripts and
    membership tests; [JSONError] stands for what [await res.json()]
    raises on a body that is no JSON document, [InvalidURL] is aiohttp's,
    for a URL it cannot send a request to, [UnsupportedOperation] is what
    [seek] raises on a stream that cannot seek, and [StorageError] stands
    for what boto3 raises. *)
Inductive Exn : Type :=
| ValueError (msg : string)
| TypeError
| KeyError (key : string)
| IndexError
| JSONError
| InvalidURL
| UnsupportedOperation
| StorageError (msg : string).

(** The two messages of the source's [raise ValueError(...)] statements,
    under the names the specification gives to these error kinds. *)
Definition UnsupportedMediaType : Exn := ValueError "Unsupported media type!".
Definition UnexpectedResponse : Exn := ValueError "Unexpected response!".

(** ** HTTP requests and responses *)

Inductive Method : Type := GET | POST | PUT | DELETE.

Inductive FieldValue : Type :=
| FileContent (c : list byte)
| TextValue (s : string).

(** One [FormData.add_field(name, value, content_type=, filename=)]. *)
Record Field : Type := mkField {
  name : string;
  value : FieldValue;
  content_type : option string;
  filename : option string
}.

Inductive Payload : Type :=
| NoBody
| JsonBody (j : JSON)                    (* json=... *)
| FormBody (form_data : list Field)      (* data=FormData *)
| DataBody (d : gmap string JSON).       (* data={...} *)

Record Request : Type := mkRequest {
  method : Method;
  url : string;
  params : gmap string JSON;
  payload : Payload
}.

(** The observations the source makes of a [ClientResponse]: [res.ok],
    [await res.text()], [await res.json()] ([None] when the body is not a
    JSON document, and the call raises) and [res.content]. *)
Record Response : Type := mkResponse {
  status : Z;
  text : string;
  json : option JSON;
  content : list byte
}.

(** aiohttp: [ok] is [400 > self.status]. *)
Definition ok (res : Response) : bool := status res <? 400.

(** A binary file object, as [Streamable.upload_video] uses it: its
    content, and whether it can seek.  A [BytesIO], or a [BufferedReader]
    on a regular file, can; a [BufferedReader] on a pipe cannot. *)
Record Reader : Type := mkReader {
  data : list byte;
  seekable : bool
}.

(** A list of bytes, where a file object is expected, is a [BytesIO] of
    these bytes. *)
Definition BytesIO (b : list byte) : Reader := mkReader b true.
#[warning="-uniform-inheritance"] Coercion BytesIO : list >-> Reader.

(** The direct transfer of [Streamable.upload_video]:
    [client("s3", aws_access_key_id=..., ...).upload_fileobj(...)]. *)
Record S3Upload : Type := mkS3Upload {
  aws_access_key_id : JSON;
  aws_secret_access_key : JSON;
  aws_session_token : JSON;
  fileobj : list byte;
  bucket : string;
  key : string;
  acl : string
}.

(** ** Parsed HTML *)

(** The tree [BeautifulSoup] builds: text nodes and tags with their
    attributes. *)
Inductive Node : Type :=
| Text (s : string)
| Tag (tag_name : string) (attrs : gmap string string) (children : list Node).

(** ** Library functions the source calls

    They are not code of this repository; the clients are verified for
    every choice of them. *)
Class PyLib : Type := {
  (** [mimetypes.guess_type(name)[0]] *)
  guess_type : string → option string;
  (** [str(x)], as an f-string formats a value *)
  py_str : JSON → string;
  (** [BeautifulSoup(text, features="html.parser")]: the top-level nodes *)
  html_parser : string → list Node;
  (** [Path(name).stem] *)
  path_stem : string → string;
  (** whether the session takes a string as the URL of a request; for one
      it does not take (a URL without a host, say) [session.get] raises
      [InvalidURL] and sends nothing *)
  accepts_url : string → bool;
  (** whether the session takes a value as a query parameter; for one it
      does not take ([None], say) the call raises [TypeError] and sends
      nothing *)
  accepts_query : JSON → bool;
  (** what [client("s3", ...).upload_fileobj(...)] raises, if anything *)
  upload_fileobj : S3Upload → option Exn
}.

(** ** Programs *)

(** A request that was sent, or a transfer to storage that was carried
    out. *)
Inductive Event : Type :=
| Sent (rq : Request)
| Stored (u : S3Upload).

Inductive Prog (A : Type) : Type :=
| Ret (a : A)
| Raise (e : Exn)
| Await (rq : Request) (k : Response → Prog A)
| Transfer (u : S3Upload) (k : Prog A).

Arguments Ret {A} a.
Arguments Raise {A} e.
Arguments Await {A} rq k.
Arguments Transfer {A} u k.

Fixpoint prog_bind {A B} (f : A → Prog B) (p : Prog A) : Prog B :=
  match p with
  | Ret a => f a
  | Raise e => Raise e
  | Await rq k => Await rq (λ res, prog_bind f (k res))
  | Transfer u k => Transfer u (prog_bind f k)
  end.

#[global] Instance Prog_ret : MRet Prog := @Ret.
#[global] Instance Prog_bind : MBind Prog := @prog_bind.

(** [await self.__session.request(...)] *)
Definition request (rq : Request) : Prog Response := Await rq Ret.

(** [await self.__session.get(u)] for a URL [u] that was read from a
    page: the session sends the request only when it takes the URL. *)
Definition session_get `{Lib : PyLib} (u : string) : Prog Response :=
  if accepts_url u then request (mkRequest GET u ∅ NoBody)
  else Raise InvalidURL.

(** The remote side: the response to a request may depend on everything
    sent before it. *)
Definition Server : Type := list Event → Request → Response.

Inductive Outcome (A : Type) : Type :=
| Returned (a : A)
| Raised (e : Exn).

Arguments Returned {A} a.
Arguments Raised {A} e.

(** [run srv hist p]: the trace after [p], started after [hist], and how
    [p] ended. *)
Fixpoint run {A} (srv : Server) (hist : list Event) (p : Prog A)
  : list Event * Outcome A :=
  match p with
  | Ret a => (hist, Returned a)
  | Raise e => (hist, Raised e)
  | Await rq k => run srv (hist ++ [Sent rq]) (k (srv hist rq))
  | Transfer u k => run srv (hist ++ [Stored u]) k
  end.

(** A call of a client method from a fresh trace. *)
Definition call {A} (srv : Server) (p : Prog A) : list Event * Outcome A :=
  run srv [] p.

(** ** Python built-ins used by the clients *)

(** [s.endswith(suffix)] *)
Definition endswith (s suffix : string) : bool :=
  let n := String.length s in
  let m := String.length suffix in
  if (m <=? n)%nat then String.eqb (substring (n - m) m s) suffix else false.

(** [s in t] for two strings *)
Fixpoint is_substring (s t : string) : bool :=
  String.prefix s t ||
  match t with
  | EmptyString => false
  | String _ t' => is_substring s t'
  end.

(** [k in x]: key membership for a dict, element membership for a list,
    substring for a string; anything else is not iterable. *)
Definition contains (x : JSON) (k : string) : Prog bool :=
  match x with
  | JObj m => Ret (match m !! k with Some _ => true | None => false end)
  | JArr l =>
      Ret (existsb (λ y, match y with JStr t => String.eqb k t | _ => false end) l)
  | JStr t => Ret (is_substring k t)
  | _ => Raise TypeError
  end.

(** [x[k]] with a string [k]: only a dict takes it. *)
Definition getitem (x : JSON) (k : string) : Prog JSON :=
  match x with
  | JObj m =>
      match m !! k with
      | Some v => Ret v
      | None => Raise (KeyError k)
      end
  | _ => Raise TypeError
  end.

(** [x is None] *)
Definition is_None (x : JSON) : bool :=
  match x with JNull => true | _ => false end.

(** An optional string as a JSON value ([None] is [null]). *)
Definition opt_str (s : option string) : JSON :=
  match s with Some t => JStr t | None => JNull end.

(** [await res.json()] *)
Definition await_json (res : Response) : Prog JSON :=
  match json res with
  | Some x => Ret x
  | None => Raise JSONError
  end.

(** [res.json()[k]] without [await]: [json] is a coroutine function, the
    call yields a coroutine object, and subscripting one is a
    [TypeError]. Nothing is read from the response. *)
Definition coroutine_getitem (res : Response) (k : string) : Prog JSON :=
  Raise TypeError.

(** The parenthesised test of the clip chains,
    ["error" not in respJsonData or respJsonData["error"] is None]. *)
Definition without_error (respJsonData : JSON) : Prog bool :=
  has ← contains respJsonData "error";
  if negb has then Ret true
  else (e ← getitem respJsonData "error"; Ret (is_None e)).

(** ** BeautifulSoup queries *)

(** A node followed by everything below it, in document order. *)
Fixpoint descendants (n : Node) : list Node :=
  n :: match n with
       | Text _ => []
       | Tag _ _ cs => flat_map descendants cs
       end.

Definition tag_matches (nm : string) (want : gmap string string) (n : Node)
  : bool :=
  match n with
  | Text _ => false
  | Tag nm' at' _ =>
      String.eqb nm' nm &&
      forallb (λ kv, bool_decide (at' !! kv.1 = Some kv.2)) (map_to_list want)
  end.

(** [soup.find_all(nm, attrs=want)] *)
Definition find_all (nm : string) (want : gmap string string)
    (soup : list Node) : list Node :=
  List.filter (tag_matches nm want) (flat_map descendants soup).

(** [l[0]] *)
Definition getitem0 {A} (l : list A) : Prog A :=
  match l with
  | x :: _ => Ret x
  | [] => Raise IndexError
  end.

(** [tag[k]] *)
Definition tag_getitem (n : Node) (k : string) : Prog string :=
  match n with
  | Tag _ at' _ =>
      match at' !! k with
      | Some v => Ret v
      | None => Raise (KeyError k)
      end
  | Text _ => Raise TypeError
  end.

(** ** The session *)

(** What [_client_session_setup] reads and writes of a [ClientSession]:
    its default headers, by header name. *)
Record ClientSession : Type := mkSession {
  headers : gmap string string
}.

(** [aiohttp.hdrs.USER_AGENT] *)
Definition USER_AGENT : string := "User-Agent".

Section SessionSetup.
(** [default_user_agent] comes from the package's [__init__], and
    [new_session] is what [ClientSession()] makes. *)
Context (default_user_agent : string) (new_session : ClientSession).

Definition _client_session_setup (session : option ClientSession)
    (user_agent : option string) : ClientSession :=
  let session :=
    match session with
    | None => new_session
    | Some s => s
    end in
  match headers session !! USER_AGENT with
  | Some _ => session
  | None =>
      match user_agent with
      | None =>
          mkSession (<[ USER_AGENT := default_user_agent ]> (headers session))
      | Some ua => mkSession (<[ USER_AGENT := ua ]> (headers session))
      end
  end.
End SessionSetup.

(** ** The clients *)

Module Imgur.
Section Client.
Context `{Lib : PyLib}.

Definition api_url : string := "https://api.imgur.com".
Definition base_url : string := "https://imgur.com".
Definition client_id : string := "546c25a59c58ad7".

Definition upload_media (media_content : list byte) (media_filename : string)
  : Prog Response :=
  if negb (endswith media_filename ".mp4") then
    Raise (ValueError "Unsupported media type!")
  else
    let media_key :=
      if endswith media_filename ".mp4" then "video" else "image" in
    let form_data :=
      [ mkField media_key (FileContent media_content)
                (guess_type media_filename) (Some media_filename);
        mkField "type" (TextValue "file") None None;
        mkField "name" (TextValue media_filename) None None ] in
    request (mkRequest POST (api_url +:+ "/3/image")
                       {[ "client_id" := JStr client_id ]}
                       (FormBody form_data)).

Definition generate_album : Prog Response :=
  request (mkRequest POST (api_url +:+ "/3/album")
                     {[ "client_id" := JStr client_id ]}
                     (JsonBody (JObj ∅))).

Definition poll_upload_tickets (tickets : list string) : Prog Response :=
  request (mkRequest GET (base_url +:+ "/upload/poll")
                     {[ "client_id" := JStr client_id;
                        "tickets[]" := JArr (JStr <$> tickets) ]}
                     NoBody).

Definition update_album_metadata (deletehash : string)
    (metadata : gmap string JSON) : Prog Response :=
  request (mkRequest POST (api_url +:+ "/3/album/" +:+ deletehash)
                     {[ "client_id" := JStr client_id ]}
                     (JsonBody (JObj metadata))).

Definition update_media_metadata (deletehash : string)
    (metadata : gmap string JSON) : Prog Response :=
  request (mkRequest POST (api_url +:+ "/3/image/" +:+ deletehash)
                     {[ "client_id" := JStr client_id ]}
                     (JsonBody (JObj metadata))).

Definition delete_album (deletehash : string) : Prog Response :=
  request (mkRequest DELETE (api_url +:+ "/3/album/" +:+ deletehash)
                     {[ "client_id" := JStr client_id ]} NoBody).

Definition delete_media (deletehash : string) : Prog Response :=
  request (mkRequest DELETE (api_url +:+ "/3/image/" +:+ deletehash)
                     {[ "client_id" := JStr client_id ]} NoBody).

Definition add_media_to_album (album_deletehash media_deletehash : string)
  : Prog Response :=
  request (mkRequest POST
             (api_url +:+ "/3/album/" +:+ album_deletehash +:+ "/add")
             {[ "client_id" := JStr client_id ]}
             (JsonBody (JObj {[ "deletehashes" := JStr media_deletehash ]}))).

Definition arrange_album (album_deletehash cover_media_id : string)
    (media_deletehashes : list string) : Prog Response :=
  request (mkRequest PUT (api_url +:+ "/3/album/" +:+ album_deletehash)
             {[ "client_id" := JStr client_id ]}
             (JsonBody (JObj {[ "cover" := JStr cover_media_id;
                                "deletehashes" :=
                                  JArr (JStr <$> media_deletehashes) ]}))).

Definition check_captcha (total_upload : Z)
    (g_recaptcha_response : option string) : Prog Response :=
  request (mkRequest POST (api_url +:+ "/3/upload/checkcaptcha")
             {[ "client_id" := JStr client_id ]}
             (JsonBody (JObj {[ "total_upload" := JNum total_upload;
                                "g-recaptcha-response" :=
                                  opt_str g_recaptcha_response ]}))).
End Client.
End Imgur.

Module Streamja.
Section Client.
Context `{Lib : PyLib}.

Definition base_url : string := "https://streamja.com".

Definition generate_upload_shortcode : Prog Response :=
  request (mkRequest POST (base_url +:+ "/shortId.php") ∅
                     (DataBody {[ "new" := JNum 1 ]})).

Definition upload_video (video_content : list byte) (video_filename : string)
  : Prog Response :=
  res ← generate_upload_shortcode;
  if ok res then
    res_json ← await_json res;
    has ← contains res_json "error";
    if negb has then
      let form_data :=
        [ mkField "file" (FileContent video_content)
                  (guess_type video_filename) (Some video_filename) ] in
      shortId ← getitem res_json "shortId";
      if accepts_query shortId then
        request (mkRequest POST (base_url +:+ "/upload.php")
                           {[ "shortId" := shortId ]}
                           (FormBody form_data))
      else Raise TypeError
    else Ret res
  else Ret res.

Definition page_request (video_id : string) : Request :=
  mkRequest GET (base_url +:+ "/" +:+ video_id) ∅ NoBody.

Definition get_video (video_id : string) : Prog Response :=
  res ← request (page_request video_id);
  if negb (ok res) then Ret res
  else
    tag ← getitem0 (find_all "source" ∅ (html_parser (text res)));
    src ← tag_getitem tag "src";
    session_get src.
End Client.
End Streamja.

Module Streamwo.
Section Client.
Context `{Lib : PyLib}.

Definition base_url : string := "https://streamwo.com".

Definition page_request (video_id : string) : Request :=
  mkRequest GET (base_url +:+ "/" +:+ video_id) ∅ NoBody.

Definition get_video (video_id : string) : Prog Response :=
  res ← request (page_request video_id);
  if negb (ok res) then Ret res
  else
    tag ← getitem0 (find_all "source" ∅ (html_parser (text res)));
    src ← tag_getitem tag "src";
    session_get src.

(** [string.ascii_letters] and [string.digits] *)
Definition ascii_letters : string :=
  "abcdefghijklmnopqrstuvwxyzABCDEFGHIJKLMNOPQRSTUVWXYZ".
Definition digits : string := "0123456789".

(** [random.choice(seq)] on a non-empty string, for the draw [r] of the
    generator: [seq[_randbelow(len(seq))]], an index below the length. *)
Definition choice (r : nat) (seq : string) : ascii :=
  default "000"%char (String.get (r mod String.length seq) seq).

(** ["".join([choice(ascii_letters + digits) for _ in range(7)])], where
    [draws i] is the draw of the [i]-th call of [choice]. *)
Definition generate_upload_id (draws : nat → nat) : string :=
  string_of_list_ascii
    ((λ i, choice (draws i) (ascii_letters +:+ digits)) <$> seq 0 7).

Definition upload_request (upload_id : string) (video_content : list byte)
    (video_filename : string) : Request :=
  mkRequest POST (base_url +:+ "/index.php")
    {[ "action" := JStr "upload"; "id" := JStr upload_id ]}
    (FormBody [ mkField "file" (FileContent video_content)
                        (guess_type video_filename) (Some video_filename) ]).

Definition upload_video (draws : nat → nat) (video_content : list byte)
    (video_filename : string) : Prog Response :=
  request (upload_request (generate_upload_id draws) video_content
             video_filename).
End Client.
End Streamwo.

Module Streamff.
Section Client.
Context `{Lib : PyLib}.

Definition base_url : string := "https://streamff.com".

Definition generate_link_request : Request :=
  mkRequest POST (base_url +:+ "/api/videos/generate-link") ∅ NoBody.

Definition generate_link : Prog Response := request generate_link_request.

Definition upload_request (link : string) (video_content : list byte)
    (video_filename : string) : Request :=
  mkRequest POST (base_url +:+ "/api/videos/upload/" +:+ link) ∅
    (FormBody [ mkField "file" (FileContent video_content)
                        (guess_type video_filename) (Some video_filename) ]).

Definition upload_video (video_content : list byte) (video_filename : string)
  : Prog Response :=
  res ← generate_link;
  if negb (ok res) then Raise (ValueError "Unexpected response!")
  else request (upload_request (text res) video_content video_filename).

Definition page_request (video_id : string) : Request :=
  mkRequest GET (base_url +:+ "/api/videos/" +:+ video_id) ∅ NoBody.

Definition get_video (video_id : string) : Prog Response :=
  res ← request (page_request video_id);
  if negb (ok res) then Ret res
  else
    res_json ← await_json res;
    videoLink ← getitem res_json "videoLink";
    request (mkRequest GET (base_url +:+ py_str videoLink) ∅ NoBody).
End Client.
End Streamff.

Module Streamable.
Section Client.
Context `{Lib : PyLib}.

Definition api_url : string := "https://ajax.streamable.com".
Definition base_url : string := "https://streamable.com".
Definition frontend_react_version : string :=
  "03db98af3545197e67cb96893d9e9d8729eee743".

Definition shortcode_request (video_sz : Z) : Request :=
  mkRequest GET (api_url +:+ "/shortcode")
    {[ "version" := JStr frontend_react_version; "size" := JNum video_sz ]}
    NoBody.

Definition generate_upload_shortcode (video_sz : Z) : Prog Response :=
  request (shortcode_request video_sz).

(** The four [generate_*_clip_shortcode] methods post the same document
    up to the extractor and the source page. *)
Definition clip_shortcode_request (extractor source video_id : string)
    (mirror_title : option string) : Request :=
  mkRequest POST (api_url +:+ "/videos") ∅
    (JsonBody (JObj {[ "extract_id" := JStr video_id;
                       "extractor" := JStr extractor;
                       "source" := JStr source;
                       "status" := JNum 1;
                       "title" := opt_str mirror_title;
                       "upload_source" := JStr "clip" ]})).

Definition generate_streamable_clip_shortcode (video_id : string)
    (mirror_title : option string) : Prog Response :=
  request (clip_shortcode_request "streamable"
             (base_url +:+ "/" +:+ video_id) video_id mirror_title).

Definition generate_streamja_clip_shortcode (video_id : string)
    (mirror_title : option string) : Prog Response :=
  request (clip_shortcode_request "generic"
             (Streamja.base_url +:+ "/" +:+ video_id) video_id mirror_title).

Definition generate_streamwo_clip_shortcode (video_id : string)
    (mirror_title : option string) : Prog Response :=
  request (clip_shortcode_request "generic"
             (Streamwo.base_url +:+ "/" +:+ video_id) video_id mirror_title).

Definition generate_streamff_clip_shortcode (video_id : string)
    (mirror_title : option string) : Prog Response :=
  request (clip_shortcode_request "generic"
             (Streamff.base_url +:+ "/v/" +:+ video_id) video_id mirror_title).

Definition transcode_upload_request (video_shortcode : JSON) (video_size : Z)
    (transcoder_token : JSON) : Request :=
  mkRequest POST (api_url +:+ "/transcode/" +:+ py_str video_shortcode) ∅
    (JsonBody (JObj {[ "shortcode" := video_shortcode;
                       "size" := JNum video_size;
                       "token" := transcoder_token;
                       "upload_source" := JStr "web";
                       "url" := JStr ("https://streamables-upload.s3.amazonaws.com"
                                      +:+ "/upload/" +:+ py_str video_shortcode) ]})).

Definition start_transcode_upload (video_shortcode : JSON) (video_size : Z)
    (transcoder_token : JSON) : Prog Response :=
  request (transcode_upload_request video_shortcode video_size transcoder_token).

Definition metadata_request (video_shortcode : JSON) (video_filename : string)
    (video_size : Z) (video_title : option string) : Request :=
  mkRequest PUT (api_url +:+ "/videos/" +:+ py_str video_shortcode)
    {[ "purge" := JStr EmptyString ]}
    (JsonBody (JObj {[ "original_name" := JStr video_filename;
                       "original_size" := JNum video_size;
                       "title" := JStr (match video_title with
                                        | Some t => t
                                        | None => path_stem video_filename
                                        end);
                       "upload_source" := JStr "web" ]})).

Definition update_video_metadata (video_shortcode : JSON)
    (video_filename : string) (video_size : Z) (video_title : option string)
  : Prog Response :=
  request (metadata_request video_shortcode video_filename video_size
             video_title).

(** [video_content.seek(0, SEEK_END)] raises on a file object that cannot
    seek, before any request; the size is the length of the content.  An
    exception of [client("s3", ...).upload_fileobj(...)] comes out of the
    method, and the transfer counts as carried out when there is none. *)
Definition upload_video (video_content : Reader) (video_filename : string)
    (video_title : option string) : Prog Response :=
  if negb (seekable video_content) then Raise UnsupportedOperation
  else
  let video_sz := Z.of_nat (length (data video_content)) in
  res ← generate_upload_shortcode video_sz;
  if ok res then
    res_json ← await_json res;
    shortcode ← getitem res_json "shortcode";
    access_key_id ←
      (c ← getitem res_json "credentials"; getitem c "accessKeyId");
    secret_access_key ←
      (c ← getitem res_json "credentials"; getitem c "secretAccessKey");
    session_token ←
      (c ← getitem res_json "credentials"; getitem c "sessionToken");
    transcoder_token ←
      (c ← getitem res_json "transcoder_options"; getitem c "token");
    res ← update_video_metadata shortcode video_filename video_sz video_title;
    if ok res then
      let transfer :=
        mkS3Upload access_key_id secret_access_key session_token
          (data video_content) "streamables-upload"
          ("upload/" +:+ py_str shortcode) "public-read" in
      match upload_fileobj transfer with
      | Some e => Raise e
      | None =>
          Transfer transfer
            (start_transcode_upload shortcode video_sz transcoder_token)
      end
    else Ret res
  else Ret res.

Definition extract_request (page_url : JSON) : Request :=
  mkRequest GET (api_url +:+ "/extract") {[ "url" := page_url ]} NoBody.

(** The body of the final [post] of the clip chains. *)
Definition clip_transcode_request (extractor : string)
    (shortcode_vid_headers new_mirror_shortcode : JSON)
    (mirror_title : option string) (shortcode_vid_url : JSON) : Request :=
  mkRequest POST (api_url +:+ "/transcode/" +:+ py_str new_mirror_shortcode) ∅
    (JsonBody (JObj {[ "extractor" := JStr extractor;
                       "headers" := shortcode_vid_headers;
                       "mute" := JBool false;
                       "shortcode" := new_mirror_shortcode;
                       "thumb_offset" := JNull;
                       "title" := JStr (match mirror_title with
                                        | None => EmptyString
                                        | Some t => t
                                        end);
                       "upload_source" := JStr "clip";
                       "url" := shortcode_vid_url ]})).

(** The second test of the clip chains,
    [res.ok or ("error" not in (respJsonData := await res.json()) or ...)]:
    its value, and [respJsonData] after it.  When [res.ok] holds the
    right operand is not evaluated and [respJsonData] keeps the value
    bound by the first test. *)
Definition ok_or_without_error (res : Response) (respJsonData : JSON)
  : Prog (bool * JSON) :=
  if ok res then Ret (true, respJsonData)
  else
    respJsonData ← await_json res;
    c ← without_error respJsonData;
    Ret (c, respJsonData).

Definition clip_video (video_id : string) (mirror_title : option string)
  : Prog Response :=
  res ← request (extract_request (JStr (base_url +:+ "/" +:+ video_id)));
  if ok res then
    respJsonData ← await_json res;
    c ← without_error respJsonData;
    if (c : bool) then
      shortcode_vid_url ← getitem respJsonData "url";
      shortcode_vid_headers ← getitem respJsonData "headers";
      res ← generate_streamable_clip_shortcode video_id mirror_title;
      '(c, respJsonData) ← ok_or_without_error res respJsonData;
      if (c : bool) then
        new_mirror_shortcode ← getitem respJsonData "shortcode";
        request (clip_transcode_request "streamable" shortcode_vid_headers
                   new_mirror_shortcode mirror_title shortcode_vid_url)
      else Ret res
    else Ret res
  else Ret res.

Definition clip_streamja_video (video_id : string)
    (mirror_title : option string) : Prog Response :=
  res ← request (extract_request (JStr (Streamja.base_url +:+ "/" +:+ video_id)));
  if ok res then
    respJsonData ← await_json res;
    c ← without_error respJsonData;
    if (c : bool) then
      shortcode_vid_url ← getitem respJsonData "url";
      shortcode_vid_headers ← getitem respJsonData "headers";
      res ← generate_streamja_clip_shortcode video_id mirror_title;
      '(c, respJsonData) ← ok_or_without_error res respJsonData;
      if (c : bool) then
        new_mirror_shortcode ← coroutine_getitem res "shortcode";
        request (clip_transcode_request "generic" shortcode_vid_headers
                   new_mirror_shortcode mirror_title shortcode_vid_url)
      else Ret res
    else Ret res
  else Ret res.

Definition clip_streamwo_video (video_id : string)
    (mirror_title : option string) : Prog Response :=
  res ← request (extract_request (JStr (Streamwo.base_url +:+ "/" +:+ video_id)));
  if ok res then
    respJsonData ← await_json res;
    c ← without_error respJsonData;
    if (c : bool) then
      shortcode_vid_url ← getitem respJsonData "url";
      shortcode_vid_headers ← getitem respJsonData "headers";
      res ← generate_streamwo_clip_shortcode video_id mirror_title;
      '(c, respJsonData) ← ok_or_without_error res respJsonData;
      if (c : bool) then
        new_mirror_shortcode ← getitem respJsonData "shortcode";
        request (clip_transcode_request "generic" shortcode_vid_headers
                   new_mirror_shortcode mirror_title shortcode_vid_url)
      else Ret res
    else Ret res
  else Ret res.

Definition streamff_lookup_request (video_id : string) : Request :=
  mkRequest GET (Streamff.base_url +:+ "/api/videos/" +:+ video_id) ∅ NoBody.

Definition clip_streamff_video (video_id : string)
    (mirror_title : option string) : Prog Response :=
  res ← request (streamff_lookup_request video_id);
  if negb (ok res) then Ret res
  else
    videoLink ← coroutine_getitem res "videoLink";
    res ← request (extract_request videoLink);
    if ok res then
      respJsonData ← await_json res;
      c ← without_error respJsonData;
      if (c : bool) then
        shortcode_vid_url ← getitem respJsonData "url";
        shortcode_vid_headers ← getitem respJsonData "headers";
        res ← generate_streamff_clip_shortcode video_id mirror_title;
        '(c, respJsonData) ← ok_or_without_error res respJsonData;
        if (c : bool) then
          new_mirror_shortcode ← getitem respJsonData "shortcode";
          request (clip_transcode_request "generic" shortcode_vid_headers
                     new_mirror_shortcode mirror_title shortcode_vid_url)
        else Ret res
      else Ret res
    else Ret res.

Definition page_request (video_id : string) : Request :=
  mkRequest GET (base_url +:+ "/" +:+ video_id) ∅ NoBody.

Definition get_video (video_id : string) : Prog Response :=
  res ← request (page_request video_id);
  if negb (ok res) then Ret res
  else
    tag ← getitem0 (find_all "meta" {[ "property" := "og:video:secure_url" ]}
                      (html_parser (text res)));
    src ← tag_getitem tag "content";
    session_get src.

Definition me : Prog Response :=
  request (mkRequest GET (api_url +:+ "/me") ∅ NoBody).

Definition poll_video_status (video_id : string) : Prog Response :=
  request (mkRequest GET (api_url +:+ "/poll2") ∅
             (JsonBody (JArr [ JObj {[ "shortcode" := JStr video_id;
                                       "version" := JNum 0 ]} ]))).

Definition purge_complete (video_id : string) : Prog Response :=
  request (mkRequest PUT (api_url +:+ "/videos/" +:+ video_id)
             {[ "purge" := JStr EmptyString ]}
             (JsonBody (JObj {[ "upload_percent" := JNum 100 ]}))).
End Client.
End Streamable.

Module JustStreamLive.
Section Client.
Context `{Lib : PyLib}.

Definition api_url : string := "https://api.juststream.live".

Definition upload_video (video_content : list byte) (video_filename : string)
  : Prog Response :=
  let form_data :=
    [ mkField "file" (FileContent video_content)
              (guess_type video_filename) (Some video_filename) ] in
  request (mkRequest POST (api_url +:+ "/videos/upload") ∅
                     (FormBody form_data)).

(** [streamff_client] shares the session, whether it is passed in or
    made here. *)
Definition mirror_streamff_video (video_id : string)
    (mirror_filename : string) : Prog Response :=
  video_res ← Streamff.get_video video_id;
  if negb (ok video_res) then Ret video_res
  else upload_video (content video_res) mirror_filename.

Definition upload_request (video_content : list byte)
    (video_filename : string) : Request :=
  mkRequest POST (api_url +:+ "/videos/upload") ∅
    (FormBody [ mkField "file" (FileContent video_content)
                        (guess_type video_filename) (Some video_filename) ]).

Definition mirror_request (url : string) : Request :=
  mkRequest POST (api_url +:+ "/videos/upload-from-url") ∅
    (DataBody {[ "url" := JStr url ]}).

Definition mirror_from_url (url : string) : Prog Response :=
  request (mirror_request url).

Definition mirror_streamja_video (video_id : string) : Prog Response :=
  mirror_from_url (Streamja.base_url +:+ "/" +:+ video_id).

Definition mirror_streamable_video (video_id : string) : Prog Response :=
  mirror_from_url (Streamable.base_url +:+ "/" +:+ video_id).

Definition mirror_streamwo_video (video_id : string) : Prog Response :=
  mirror_from_url (Streamwo.base_url +:+ "/" +:+ video_id).
End Client.
End JustStreamLive.

(** ** What a request carries *)

(** The member [k] of a request's JSON document. *)
Definition json_field (rq : Request) (k : string) : option JSON :=
  match payload rq with
  | JsonBody (JObj m) => m !! k
  | _ => None
  end.

(** The fields of a request's multipart form. *)
Definition form_fields (rq : Request) : list Field :=
  match payload rq with
  | FormBody fields => fields
  | _ => []
  end.

Definition is_file (f : Field) : bool :=
  match value f with FileContent _ => true | TextValue _ => false end.

(** ** The first tag of a name, by a search of the document

    The specification's "first matching tag": the search goes through the
    nodes from left to right and looks at a tag before its children. *)
Fixpoint first_tag_below (nm : string) (n : Node) : option Node :=
  match n with
  | Text _ => None
  | Tag nm' _ cs =>
      if String.eqb nm' nm then Some n
      else (fix among (l : list Node) : option Node :=
              match l with
              | [] => None
              | c :: l' =>
                  match first_tag_below nm c with
                  | Some t => Some t
                  | None => among l'
                  end
              end) cs
  end.

Fixpoint first_tag (nm : string) (soup : list Node) : option Node :=
  match soup with
  | [] => None
  | c :: l' =>
      match first_tag_below nm c with
      | Some t => Some t
      | None => first_tag nm l'
      end
  end.

(** Induction on a document, with the property available for the
    children of a tag. *)
Fixpoint Node_forall_ind (P : Node → Prop)
    (HText : ∀ s, P (Text s))
    (HTag : ∀ nm at' cs, Forall P cs → P (Tag nm at' cs))
    (n : Node) : P n :=
  match n with
  | Text s => HText s
  | Tag nm at' cs =>
      HTag nm at' cs
        ((fix children (l : list Node) : Forall P l :=
            match l with
            | [] => @List.Forall_nil Node P
            | c :: l' =>
                @List.Forall_cons Node P c l'
                  (Node_forall_ind P HText HTag c) (children l')
            end) cs)
  end.

(** What [get_video] does with a page that was fetched, for the two
    clients that read the [source] tag. *)
Definition source_outcome `{Lib : PyLib} (srv : Server) (page : Request)
    (soup : list Node) : list Event * Outcome Response :=
  match first_tag "source" soup with
  | None => ([Sent page], Raised IndexError)
  | Some (Text _) => ([Sent page], Raised TypeError)
  | Some (Tag _ at' _) =>
      match at' !! "src" with
      | None => ([Sent page], Raised (KeyError "src"))
      | Some src =>
          if accepts_url src then
            ([Sent page; Sent (mkRequest GET src ∅ NoBody)],
             Returned (srv [Sent page] (mkRequest GET src ∅ NoBody)))
          else ([Sent page], Raised InvalidURL)
      end
  end.

(** What a clip chain does once the extract response is an object without
    an error and the shortcode response is ok: the shortcode of the final
    request is looked up in [m], the document of the extract response. *)
Definition clip_outcome `{Lib : PyLib} (srv : Server) (extractor : string)
    (extract generate : Request) (m : gmap string JSON)
    (shortcode_vid_headers shortcode_vid_url : JSON)
    (mirror_title : option string) : list Event * Outcome Response :=
  match m !! "shortcode" with
  | Some new_mirror_shortcode =>
      let transcode :=
        Streamable.clip_transcode_request extractor shortcode_vid_headers
          new_mirror_shortcode mirror_title shortcode_vid_url in
      ([Sent extract; Sent generate; Sent transcode],
       Returned (srv [Sent extract; Sent generate] transcode))
  | None => ([Sent extract; Sent generate], Raised (KeyError "shortcode"))
  end.

(** ** The first node that passes a test, by a search of the document

    As [first_tag], for any test on a node. *)
Fixpoint first_match_below (p : Node → bool) (n : Node) : option Node :=
  if p n then Some n
  else
    match n with
    | Text _ => None
    | Tag _ _ cs =>
        (fix among (l : list Node) : option Node :=
           match l with
           | [] => None
           | c :: l' =>
               match first_match_below p c with
               | Some t => Some t
               | None => among l'
               end
           end) cs
    end.

Fixpoint first_match (p : Node → bool) (soup : list Node) : option Node :=
  match soup with
  | [] => None
  | c :: l' =>
      match first_match_below p c with
      | Some t => Some t
      | None => first_match p l'
      end
  end.

(** A [meta] tag whose [property] is [og:video:secure_url]. *)
Definition is_secure_video_meta (n : Node) : bool :=
  match n with
  | Text _ => false
  | Tag nm at' _ =>
      String.eqb nm "meta" &&
      bool_decide (at' !! "property" = Some "og:video:secure_url")
  end.

(** What [Streamable.get_video] does with a page that was fetched. *)
Definition meta_outcome `{Lib : PyLib} (srv : Server) (page : Request)
    (soup : list Node) : list Event * Outcome Response :=
  match first_match is_secure_video_meta soup with
  | None => ([Sent page], Raised IndexError)
  | Some (Text _) => ([Sent page], Raised TypeError)
  | Some (Tag _ at' _) =>
      match at' !! "content" with
      | None => ([Sent page], Raised (KeyError "content"))
      | Some src =>
          if accepts_url src then
            ([Sent page; Sent (mkRequest GET src ∅ NoBody)],
             Returned (srv [Sent page] (mkRequest GET src ∅ NoBody)))
          else ([Sent page], Raised InvalidURL)
      end
  end.

(** An ASCII letter or digit, by its code. *)
Definition is_alnum (c : ascii) : bool :=
  let n := nat_of_ascii c in
  ((48 <=? n) && (n <=? 57) || (65 <=? n) && (n <=? 90)
   || (97 <=? n) && (n <=? 122))%nat.

(** The requests of a trace. *)
Definition requests_of (tr : list Event) : list Request :=
  omap (λ ev, match ev with Sent rq => Some rq | Stored _ => None end) tr.

(** What the claim on the clip chains says of a run, read off the requests
    themselves: with [m] the document of the extract response, the third
    and last request is a [POST] to the transcode endpoint of
    [m["shortcode"]], and its document carries that shortcode, the
    extracted URL and headers and the extractor; without [shortcode] in
    [m] the run ends in [KeyError] after two requests. *)
Definition sends_shortcode_of `{Lib : PyLib} (srv : Server)
    (extractor : string) (extract generate : Request) (m : gmap string JSON)
    (shortcode_vid_headers shortcode_vid_url : JSON)
    (result : list Event * Outcome Response) : Prop :=
  match m !! "shortcode" with
  | Some new_mirror_shortcode =>
      ∃ transcode,
        result = ([Sent extract; Sent generate; Sent transcode],
                  Returned (srv [Sent extract; Sent generate] transcode))
        ∧ method transcode = POST
        ∧ url transcode
          = "https://ajax.streamable.com/transcode/"
            +:+ py_str new_mirror_shortcode
        ∧ json_field transcode "shortcode" = Some new_mirror_shortcode
        ∧ json_field transcode "url" = Some shortcode_vid_url
        ∧ json_field transcode "headers" = Some shortcode_vid_headers
        ∧ json_field transcode "extractor" = Some (JStr extractor)
        ∧ json_field transcode "upload_source" = Some (JStr "clip")
  | None =>
      result = ([Sent extract; Sent generate], Raised (KeyError "shortcode"))
  end.

(** ** Test doubles

    A [PyLib] for running the clients on concrete inputs: it agrees with
    the Python functions on the inputs the examples below use. *)
Module Fixture.

Definition page_with_source : string :=
  "<video><source src='https://cdn/abc123.mp4'></video>".

Definition page_without_source : string :=
  "<p>This video was removed.</p>".

Definition soup_of (s : string) : list Node :=
  if String.eqb s page_with_source then
    [ Tag "video" ∅ [ Tag "source" {[ "src" := "https://cdn/abc123.mp4" ]} [] ] ]
  else if String.eqb s page_without_source then
    [ Tag "p" ∅ [ Text "This video was removed." ] ]
  else [].

Definition str_of (x : JSON) : string :=
  match x with
  | JStr s => s
  | JNull => "None"
  | JBool true => "True"
  | JBool false => "False"
  | _ => EmptyString
  end.

Definition mime_of (nm : string) : option string :=
  if endswith nm ".mp4" then Some "video/mp4" else None.

(** The text before the last dot, when the dot is neither the first nor
    the last character. *)
Fixpoint before_last_dot (s : string) : option string :=
  match s with
  | EmptyString => None
  | String c s' =>
      match before_last_dot s' with
      | Some t => Some (String c t)
      | None =>
          if Ascii.eqb c "."%char then Some EmptyString else None
      end
  end.

Definition stem_of (nm : string) : string :=
  match nm with
  | EmptyString => nm
  | String c s' =>
      match before_last_dot s' with
      | Some t => if String.eqb nm (String c t +:+ ".") then nm else String c t
      | None => nm
      end
  end.

(** A URL with a scheme and something other than a slash after it. *)
Definition has_host (u : string) : bool :=
  match u with
  | String "h" (String "t" (String "t" (String "p" (String ":" (String "/"
      (String "/" (String c _))))))) => negb (Ascii.eqb c "/")
  | String "h" (String "t" (String "t" (String "p" (String "s" (String ":"
      (String "/" (String "/" (String c _)))))))) => negb (Ascii.eqb c "/")
  | _ => false
  end.

(** Strings and integers. *)
Definition is_str_or_int (x : JSON) : bool :=
  match x with
  | JStr _ | JNum _ => true
  | _ => false
  end.

#[local] Instance lib : PyLib := {|
  guess_type := mime_of;
  py_str := str_of;
  html_parser := soup_of;
  path_stem := stem_of;
  accepts_url := has_host;
  accepts_query := is_str_or_int;
  upload_fileobj := λ _, None
|}.

Definition empty : string := EmptyString.

(** A response with the given status and body. *)
Definition response (st : Z) (body : string) (doc : option JSON) : Response :=
  mkResponse st body doc [].

(** A server that answers the [n]-th request with the [n]-th response
    of a script, and with a 404 afterwards. *)
Definition scripted (script : list Response) : Server :=
  λ hist _, default (response 404 empty None) (script !! length hist).

(** Documents of the Streamable API, as section 6 of the specification
    gives their shape. *)
Definition slot_doc : gmap string JSON :=
  {[ "shortcode" := JStr "ab12c";
     "credentials" :=
       JObj {[ "accessKeyId" := JStr "AKIDEXAMPLE";
               "secretAccessKey" := JStr "secret";
               "sessionToken" := JStr "session" ]};
     "transcoder_options" := JObj {[ "token" := JStr "tr-1" ]} ]}.

Definition extract_doc : gmap string JSON :=
  {[ "url" := JStr "https://cdn.example/abc123.mp4";
     "headers" := JObj {[ "Referer" := JStr "https://streamable.com/" ]} ]}.

Definition extract_error_doc : gmap string JSON :=
  {[ "error" := JStr "Video not found" ]}.

Definition shortcode_doc : gmap string JSON :=
  {[ "shortcode" := JStr "zz9" ]}.

(** An extract document that happens to carry a [shortcode] member. *)
Definition extract_doc_with_shortcode : gmap string JSON :=
  <[ "shortcode" := JStr "xt7" ]> extract_doc.

End Fixture.

(** A second double, for a page with Open Graph tags. *)
Module OpenGraph.

Definition page : string :=
  "<head><meta property='og:title' content='Goal'>" +:+
  "<meta property='og:video:secure_url' content='https://cdn.example/v.mp4'>" +:+
  "</head>".

Definition soup_of (s : string) : list Node :=
  if String.eqb s page then
    [ Tag "head" ∅
        [ Tag "meta" {[ "property" := "og:title"; "content" := "Goal" ]} [];
          Tag "meta" {[ "property" := "og:video:secure_url";
                        "content" := "https://cdn.example/v.mp4" ]} [] ] ]
  else [].

#[local] Instance lib : PyLib := {|
  guess_type := Fixture.mime_of;
  py_str := Fixture.str_of;
  html_parser := soup_of;
  path_stem := Fixture.stem_of;
  accepts_url := Fixture.has_host;
  accepts_query := Fixture.is_str_or_int;
  upload_fileobj := λ _, None
|}.

End OpenGraph.

(** A third double, where the object store refuses the transfer. *)
Module Refused.

#[local] Instance lib : PyLib := {|
  guess_type := Fixture.mime_of;
  py_str := Fixture.str_of;
  html_parser := Fixture.soup_of;
  path_stem := Fixture.stem_of;
  accepts_url := Fixture.has_host;
  accepts_query := Fixture.is_str_or_int;
  upload_fileobj := λ _, Some (StorageError "AccessDenied")
|}.

End Refused.

(** A fourth double, for a page whose [source] tag has a [src] without a
    host. *)
Module Relative.

Definition page : string :=
  "<video><source src='/media/abc123.mp4'></video>".

Definition soup_of (s : string) : list Node :=
  if String.eqb s page then
    [ Tag "video" ∅ [ Tag "source" {[ "src" := "/media/abc123.mp4" ]} [] ] ]
  else [].

#[local] Instance lib : PyLib := {|
  guess_type := Fixture.mime_of;
  py_str := Fixture.str_of;
  html_parser := soup_of;
  path_stem := Fixture.stem_of;
  accepts_url := Fixture.has_host;
  accepts_query := Fixture.is_str_or_int;
  upload_fileobj := λ _, None
|}.

End Relative.

(** ** Running programs *)

Section Running.
Context {A B : Type} (srv : Server).

Lemma run_bind (p : Prog A) (f : A → Prog B) (hist : list Event) :
  run srv hist (p ≫= f) =
  match run srv hist p with
  | (hist', Returned a) => run srv hist' (f a)
  | (hist', Raised e) => (hist', Raised e)
  end.
Proof.
  revert hist. induction p as [a|e|rq k IH|u k IH]; intros hist; cbn.
  - reflexivity.
  - reflexivity.
  - apply IH.
  - apply IH.
Qed.

Lemma run_request (rq : Request) (f : Response → Prog B) (hist : list Event) :
  run srv hist (request rq ≫= f) =
  run srv (hist ++ [Sent rq]) (f (srv hist rq)).
Proof. reflexivity. Qed.

Lemma run_extends (p : Prog A) (hist : list Event) :
  hist `prefix_of` (run srv hist p).1.
Proof.
  revert hist. induction p as [a|e|rq k IH|u k IH]; intros hist; cbn.
  - reflexivity.
  - reflexivity.
  - etrans; [|apply IH]. by apply prefix_app_r.
  - etrans; [|apply IH]. by apply prefix_app_r.
Qed.

End Running.

(** Runs a program up to the next test on a response. *)
Ltac step :=
  repeat first
    [ rewrite run_request
    | progress cbn [run mbind Prog_bind prog_bind mret Prog_ret app negb
                    await_json getitem contains without_error getitem0
                    tag_getitem coroutine_getitem is_None fst snd] ].

(** C5: on each clip-site client, [get_video] whose page fetch is not
    successful returns that response; the trace holds the page request
    alone, and the result does not depend on the HTML parser. *)
Theorem get_video_failed_page_is_returned `{Lib : PyLib} (srv : Server)
    (video_id : string) :
  (ok (srv [] (Streamja.page_request video_id)) = false →
   call srv (Streamja.get_video video_id)
   = ([Sent (Streamja.page_request video_id)],
      Returned (srv [] (Streamja.page_request video_id))))
  ∧ (ok (srv [] (Streamwo.page_request video_id)) = false →
     call srv (Streamwo.get_video video_id)
     = ([Sent (Streamwo.page_request video_id)],
        Returned (srv [] (Streamwo.page_request video_id))))
  ∧ (ok (srv [] (Streamff.page_request video_id)) = false →
     call srv (Streamff.get_video video_id)
     = ([Sent (Streamff.page_request video_id)],
        Returned (srv [] (Streamff.page_request video_id))))
  ∧ (ok (srv [] (Streamable.page_request video_id)) = false →
     call srv (Streamable.get_video video_id)
     = ([Sent (Streamable.page_request video_id)],
        Returned (srv [] (Streamable.page_request video_id)))).
Proof.
  repeat split; intros Hok; unfold call.
  - unfold Streamja.get_video. step. rewrite Hok. reflexivity.
  - unfold Streamwo.get_video. step. rewrite Hok. reflexivity.
  - unfold Streamff.get_video. step. rewrite Hok. reflexivity.
  - unfold Streamable.get_video. step. rewrite Hok. reflexivity.
Qed.

Lemma get_video_failed_page_witness :
  let srv := Fixture.scripted [Fixture.response 404 Fixture.empty None] in
  (ok (srv [] (Streamja.page_request "abc123")) = false
   ∧ call srv (Streamja.get_video (Lib:=Fixture.lib) "abc123")
     = ([Sent (Streamja.page_request "abc123")],
        Returned (Fixture.response 404 Fixture.empty None)))
  ∧ call srv (Streamwo.get_video (Lib:=Fixture.lib) "abc123")
    = ([Sent (Streamwo.page_request "abc123")],
       Returned (Fixture.response 404 Fixture.empty None))
  ∧ call srv (Streamff.get_video (Lib:=Fixture.lib) "abc123")
    = ([Sent (Streamff.page_request "abc123")],
       Returned (Fixture.response 404 Fixture.empty None))
  ∧ call srv (Streamable.get_video (Lib:=Fixture.lib) "abc123")
    = ([Sent (Streamable.page_request "abc123")],
       Returned (Fixture.response 404 Fixture.empty None)).
Proof.
  intros srv.
  destruct (get_video_failed_page_is_returned (Lib:=Fixture.lib) srv "abc123")
    as (Hja & Hwo & Hff & Hst).
  split; [split; [reflexivity|]|split; [|split]].
  - apply Hja. reflexivity.
  - apply Hwo. reflexivity.
  - apply Hff. reflexivity.
  - apply Hst. reflexivity.
Defined.

(** C3: [Imgur.upload_media] with a filename that does not end in [.mp4]
    raises the [ValueError] "Unsupported media type!" and the trace is
    empty: no request was issued. *)
Theorem upload_media_rejects_before_any_request `{Lib : PyLib} (srv : Server)
    (media_content : list byte) (media_filename : string) :
  endswith media_filename ".mp4" = false →
  call srv (Imgur.upload_media media_content media_filename)
  = ([], Raised UnsupportedMediaType).
Proof.
  intros Hext. unfold call, Imgur.upload_media. rewrite Hext. reflexivity.
Qed.

Lemma upload_media_rejects_witness :
  endswith "holiday.png" ".mp4" = false
  ∧ call (Fixture.scripted [])
         (Imgur.upload_media (Lib:=Fixture.lib) [x89; x50; x4e; x47]%byte
            "holiday.png")
    = ([], Raised UnsupportedMediaType).
Proof.
  split.
  - reflexivity.
  - apply upload_media_rejects_before_any_request. reflexivity.
Defined.

(** C10: a call of [Imgur.upload_media] that returns has issued one
    request, a multipart form whose only file field is the first one,
    named "video" and holding the media content; no field is named
    "image", and the filename ends in [.mp4]. *)
Theorem upload_media_field_is_video `{Lib : PyLib} (srv : Server)
    (media_content : list byte) (media_filename : string)
    (tr : list Event) (res : Response) :
  call srv (Imgur.upload_media media_content media_filename)
  = (tr, Returned res) →
  endswith media_filename ".mp4" = true
  ∧ ∃ rq f rest,
      tr = [Sent rq]
      ∧ form_fields rq = f :: rest
      ∧ name f = "video"
      ∧ value f = FileContent media_content
      ∧ Forall (λ g, is_file g = false) rest
      ∧ Forall (λ g, name g ≠ "image") (form_fields rq).
Proof.
  unfold call, Imgur.upload_media.
  destruct (endswith media_filename ".mp4") eqn:Hext; cbn [negb].
  - intros Hrun. injection Hrun as <- _. split; [reflexivity|].
    eexists _, _, _. split; [reflexivity|].
    cbn [form_fields payload]. split; [reflexivity|].
    cbn [name value]. repeat split.
    + repeat constructor.
    + repeat constructor; cbn [name]; discriminate.
  - discriminate.
Qed.

Lemma upload_media_field_witness :
  ∃ tr res,
    call (Fixture.scripted [Fixture.response 200 Fixture.empty None])
         (Imgur.upload_media (Lib:=Fixture.lib) [] "clip.mp4")
    = (tr, Returned res)
    ∧ endswith "clip.mp4" ".mp4" = true.
Proof.
  eexists _, _. split.
  - reflexivity.
  - eapply (upload_media_field_is_video (Lib:=Fixture.lib)
              (Fixture.scripted [Fixture.response 200 Fixture.empty None]) [] "clip.mp4").
    reflexivity.
Defined.

(** C8: [Streamff.upload_video] raises the [ValueError] "Unexpected
    response!" exactly when the response to [generate_link], a [POST]
    without body, is not ok; when it is ok the call returns the response
    to the upload: a [POST] to the upload endpoint followed by the text of
    the [generate_link] response, whose multipart form is the one field
    [file] with the content, the guessed type and the filename. *)
Theorem streamff_upload_raises_iff_link_failed `{Lib : PyLib} (srv : Server)
    (video_content : list byte) (video_filename : string) :
  let res := srv [] Streamff.generate_link_request in
  let upload :=
    Streamff.upload_request (text res) video_content video_filename in
  ((call srv (Streamff.upload_video video_content video_filename)).2
   = Raised UnexpectedResponse ↔ ok res = false)
  ∧ (ok res = false →
     call srv (Streamff.upload_video video_content video_filename)
     = ([Sent Streamff.generate_link_request], Raised UnexpectedResponse))
  ∧ (ok res = true →
     call srv (Streamff.upload_video video_content video_filename)
     = ([Sent Streamff.generate_link_request; Sent upload],
        Returned (srv [Sent Streamff.generate_link_request] upload))
     ∧ url upload
       = "https://streamff.com/api/videos/upload/" +:+ text res)
  ∧ Streamff.generate_link_request
    = mkRequest POST "https://streamff.com/api/videos/generate-link" ∅ NoBody
  ∧ method upload = POST
  ∧ params upload = ∅
  ∧ payload upload
    = FormBody [ mkField "file" (FileContent video_content)
                         (guess_type video_filename) (Some video_filename) ].
Proof.
  intros res upload. unfold call, Streamff.upload_video, Streamff.generate_link.
  step. fold res. destruct (ok res) eqn:Hok; cbn [negb];
    repeat split; intros; try discriminate; reflexivity.
Qed.

Lemma streamff_upload_witness :
  let failing := Fixture.scripted [Fixture.response 503 Fixture.empty None] in
  let working :=
    Fixture.scripted [Fixture.response 200 "k3Jq9" None;
                      Fixture.response 200 Fixture.empty None] in
  (ok (failing [] Streamff.generate_link_request) = false
   ∧ call failing (Streamff.upload_video (Lib:=Fixture.lib) [] "clip.mp4")
     = ([Sent Streamff.generate_link_request], Raised UnexpectedResponse))
  ∧ (ok (working [] Streamff.generate_link_request) = true
     ∧ (call working (Streamff.upload_video (Lib:=Fixture.lib) [] "clip.mp4")).1
       = [Sent (mkRequest POST "https://streamff.com/api/videos/generate-link"
                  ∅ NoBody);
          Sent (mkRequest POST "https://streamff.com/api/videos/upload/k3Jq9"
                  ∅ (FormBody [ mkField "file" (FileContent [])
                                        (Some "video/mp4")
                                        (Some "clip.mp4") ]))]).
Proof.
  intros failing working. split; (split; [reflexivity|]).
  - apply (streamff_upload_raises_iff_link_failed (Lib:=Fixture.lib) failing).
    reflexivity.
  - destruct (streamff_upload_raises_iff_link_failed (Lib:=Fixture.lib)
                working [] "clip.mp4") as (_ & _ & Hok & Hlink & _).
    destruct Hok as [Hrun _]; [reflexivity|]. rewrite Hrun. reflexivity.
Defined.

(** C9: [Streamable.update_video_metadata] issues one request; its title
    is the stem of the filename when [video_title] is [None], and the
    given title otherwise. *)
Theorem metadata_title_defaults_to_stem `{Lib : PyLib} (srv : Server)
    (video_shortcode : JSON) (video_filename : string) (video_size : Z) :
  (∀ video_title,
     call srv (Streamable.update_video_metadata video_shortcode video_filename
                 video_size video_title)
     = ([Sent (Streamable.metadata_request video_shortcode video_filename
                 video_size video_title)],
        Returned (srv [] (Streamable.metadata_request video_shortcode
                            video_filename video_size video_title))))
  ∧ json_field (Streamable.metadata_request video_shortcode video_filename
                  video_size None) "title"
    = Some (JStr (path_stem video_filename))
  ∧ ∀ t, json_field (Streamable.metadata_request video_shortcode video_filename
                       video_size (Some t)) "title"
         = Some (JStr t).
Proof.
  repeat split.
Qed.

(** ** [find_all] and the first tag of a document *)

Lemma tag_matches_any_attrs (nm : string) (n : Node) :
  tag_matches nm ∅ n
  = match n with
    | Text _ => false
    | Tag nm' _ _ => String.eqb nm' nm
    end.
Proof.
  destruct n as [s|nm' at' cs]; [reflexivity|].
  unfold tag_matches. rewrite map_to_list_empty. cbn [forallb].
  apply andb_true_r.
Qed.

Lemma head_filter_app {A} (f : A → bool) (l1 l2 : list A) :
  head (List.filter f (l1 ++ l2))
  = match head (List.filter f l1) with
    | Some x => Some x
    | None => head (List.filter f l2)
    end.
Proof.
  induction l1 as [|a l1 IH]; cbn; [reflexivity|].
  destruct (f a); [reflexivity|exact IH].
Qed.

Lemma head_find_below (nm : string) (n : Node) :
  head (List.filter (tag_matches nm ∅) (descendants n)) = first_tag_below nm n.
Proof.
  induction n as [s|nm' at' cs IH] using Node_forall_ind; [reflexivity|].
  cbn [descendants List.filter first_tag_below].
  rewrite tag_matches_any_attrs.
  destruct (String.eqb nm' nm); [reflexivity|].
  induction IH as [|c l' Hc _ IHl]; cbn [flat_map]; [reflexivity|].
  rewrite head_filter_app, Hc.
  destruct (first_tag_below nm c); [reflexivity|exact IHl].
Qed.

(** [find_all(nm)[0]], when it exists, is the first tag named [nm] that
    the left-to-right search of the document meets. *)
Lemma head_find_all (nm : string) (soup : list Node) :
  head (find_all nm ∅ soup) = first_tag nm soup.
Proof.
  unfold find_all.
  induction soup as [|c l' IH]; cbn [flat_map first_tag]; [reflexivity|].
  rewrite head_filter_app, head_find_below.
  destruct (first_tag_below nm c); [reflexivity|exact IH].
Qed.

Lemma first_tag_below_is_tag (nm : string) (n t : Node) :
  first_tag_below nm n = Some t → ∃ at' cs, t = Tag nm at' cs.
Proof.
  revert t.
  induction n as [s|nm' at' cs IH] using Node_forall_ind; intros t;
    [discriminate|].
  cbn [first_tag_below]. destruct (String.eqb nm' nm) eqn:Hnm.
  - intros [= <-]. apply String.eqb_eq in Hnm as ->. eauto.
  - induction IH as [|c l' Hc _ IHl]; [discriminate|].
    destruct (first_tag_below nm c) as [t'|] eqn:Hc'.
    + intros [= <-]. by apply Hc.
    + exact IHl.
Qed.

Lemma first_tag_is_tag (nm : string) (soup : list Node) (t : Node) :
  first_tag nm soup = Some t → ∃ at' cs, t = Tag nm at' cs.
Proof.
  induction soup as [|c l' IH]; cbn [first_tag]; [discriminate|].
  destruct (first_tag_below nm c) as [t'|] eqn:Hc.
  - intros [= <-]. by eapply first_tag_below_is_tag.
  - exact IH.
Qed.

Lemma run_source_lookup `{Lib : PyLib} (srv : Server) (page : Request)
    (soup : list Node) :
  run srv [Sent page]
    (tag ← getitem0 (find_all "source" ∅ soup);
     src ← tag_getitem tag "src";
     session_get src)
  = source_outcome srv page soup.
Proof.
  unfold source_outcome. rewrite <- head_find_all.
  destruct (find_all "source" ∅ soup) as [|t l]; [reflexivity|].
  cbn [head getitem0 mbind Prog_bind prog_bind].
  destruct t as [s|nm at' cs]; [reflexivity|].
  cbn [tag_getitem]. destruct (at' !! "src") as [src|]; [|reflexivity].
  cbn [mbind Prog_bind prog_bind]. unfold session_get.
  destruct (accepts_url src); reflexivity.
Qed.

(** C6 (amended): after a successful page fetch, [get_video] of Streamja
    and of Streamwo issues one second request, a [GET] of the [src]
    attribute of the first [source] tag of the page, when the page has a
    [source] tag, the first one has a [src] attribute, and the session
    takes that attribute as a URL; with no [source] tag the call raises
    [IndexError], with no [src] attribute it raises [KeyError], with a
    [src] the session does not take it raises [InvalidURL], and in these
    three cases the page request stays the only one. *)
Theorem get_video_requests_first_source `{Lib : PyLib} (srv : Server)
    (video_id : string) :
  (ok (srv [] (Streamja.page_request video_id)) = true →
   call srv (Streamja.get_video video_id)
   = source_outcome srv (Streamja.page_request video_id)
       (html_parser (text (srv [] (Streamja.page_request video_id)))))
  ∧ (ok (srv [] (Streamwo.page_request video_id)) = true →
     call srv (Streamwo.get_video video_id)
     = source_outcome srv (Streamwo.page_request video_id)
         (html_parser (text (srv [] (Streamwo.page_request video_id))))).
Proof.
  split; intros Hok; unfold call.
  - unfold Streamja.get_video. rewrite run_request, Hok. cbn [negb app].
    apply run_source_lookup.
  - unfold Streamwo.get_video. rewrite run_request, Hok. cbn [negb app].
    apply run_source_lookup.
Qed.

Lemma get_video_first_source_witness :
  let srv :=
    Fixture.scripted [Fixture.response 200 Fixture.page_with_source None;
                      Fixture.response 200 Fixture.empty None] in
  let media := mkRequest GET "https://cdn/abc123.mp4" ∅ NoBody in
  (ok (srv [] (Streamja.page_request "abc123")) = true
   ∧ call srv (Streamja.get_video (Lib:=Fixture.lib) "abc123")
     = ([Sent (Streamja.page_request "abc123"); Sent media],
        Returned (Fixture.response 200 Fixture.empty None)))
  ∧ (ok (srv [] (Streamwo.page_request "abc123")) = true
     ∧ call srv (Streamwo.get_video (Lib:=Fixture.lib) "abc123")
       = ([Sent (Streamwo.page_request "abc123"); Sent media],
          Returned (Fixture.response 200 Fixture.empty None))).
Proof.
  intros srv media.
  destruct (get_video_requests_first_source (Lib:=Fixture.lib) srv "abc123")
    as [Hja Hwo].
  split; (split; [reflexivity|]).
  - rewrite Hja; reflexivity.
  - rewrite Hwo; reflexivity.
Defined.

(** A [src] without a host: the session does not take it, the call
    raises [InvalidURL], and the page request is the only one. *)
Example get_video_hostless_source :
  let srv := Fixture.scripted [Fixture.response 200 Relative.page None] in
  call srv (Streamja.get_video (Lib:=Relative.lib) "abc123")
  = ([Sent (Streamja.page_request "abc123")], Raised InvalidURL).
Proof. reflexivity. Qed.

(** C6, as stated, fails on a page without a [source] tag: the fetch is
    successful, the call raises [IndexError], and no second request is
    issued. *)
Lemma get_video_without_source_tag :
  let srv :=
    Fixture.scripted [Fixture.response 200 Fixture.page_without_source None] in
  ok (srv [] (Streamja.page_request "abc123")) = true
  ∧ call srv (Streamja.get_video (Lib:=Fixture.lib) "abc123")
    = ([Sent (Streamja.page_request "abc123")], Raised IndexError).
Proof. split; reflexivity. Qed.

(** ** The clip chains *)

(** [clip_streamff_video] never gets past its lookup: a failed lookup is
    returned, and after a successful one [res.json()["videoLink"]],
    written without [await], raises [TypeError] before the extract
    request is built. *)
Lemma clip_streamff_stops_after_lookup `{Lib : PyLib} (srv : Server)
    (video_id : string) (mirror_title : option string) :
  call srv (Streamable.clip_streamff_video video_id mirror_title)
  = ([Sent (Streamable.streamff_lookup_request video_id)],
     if ok (srv [] (Streamable.streamff_lookup_request video_id))
     then Raised TypeError
     else Returned (srv [] (Streamable.streamff_lookup_request video_id))).
Proof.
  unfold call, Streamable.clip_streamff_video. step.
  destruct (ok (srv [] _)); reflexivity.
Qed.

(** The first test of the clip chains on a JSON object whose [error]
    member is present and not [null]. *)
Lemma without_error_reported (m : gmap string JSON) (e : JSON) :
  m !! "error" = Some e → e ≠ JNull →
  without_error (JObj m) = Ret false.
Proof.
  intros Hm He. unfold without_error. cbn [contains]. rewrite Hm.
  cbn [mbind Prog_bind prog_bind negb getitem]. rewrite Hm.
  destruct e; try reflexivity. contradiction.
Qed.

(** The same test on an object without [error], or with [error: null]. *)
Lemma without_error_clean (m : gmap string JSON) :
  m !! "error" = None ∨ m !! "error" = Some JNull →
  without_error (JObj m) = Ret true.
Proof.
  intros [Hm|Hm]; unfold without_error; cbn [contains]; rewrite Hm;
    cbn [mbind Prog_bind prog_bind negb getitem]; [|rewrite Hm]; reflexivity.
Qed.

(** C4: when the JSON document of the extract response is an object whose
    [error] member is not [null], [clip_video], [clip_streamja_video] and
    [clip_streamwo_video] return the extract response and the extract
    request is the only one issued; [clip_streamff_video] issues its
    lookup request and nothing else in every run. *)
Theorem clip_stops_on_extract_error `{Lib : PyLib} (srv : Server)
    (video_id : string) (mirror_title : option string)
    (m : gmap string JSON) (e : JSON) :
  m !! "error" = Some e → e ≠ JNull →
  let extract_of (base : string) :=
    Streamable.extract_request (JStr (base +:+ "/" +:+ video_id)) in
  (json (srv [] (extract_of Streamable.base_url)) = Some (JObj m) →
   call srv (Streamable.clip_video video_id mirror_title)
   = ([Sent (extract_of Streamable.base_url)],
      Returned (srv [] (extract_of Streamable.base_url))))
  ∧ (json (srv [] (extract_of Streamja.base_url)) = Some (JObj m) →
     call srv (Streamable.clip_streamja_video video_id mirror_title)
     = ([Sent (extract_of Streamja.base_url)],
        Returned (srv [] (extract_of Streamja.base_url))))
  ∧ (json (srv [] (extract_of Streamwo.base_url)) = Some (JObj m) →
     call srv (Streamable.clip_streamwo_video video_id mirror_title)
     = ([Sent (extract_of Streamwo.base_url)],
        Returned (srv [] (extract_of Streamwo.base_url))))
  ∧ (call srv (Streamable.clip_streamff_video video_id mirror_title)).1
    = [Sent (Streamable.streamff_lookup_request video_id)].
Proof.
  intros Hm He extract_of.
  pose proof (without_error_reported m e Hm He) as Hwe.
  repeat apply conj.
  - intros Hjson.
    unfold call, Streamable.clip_video. rewrite run_request.
    fold (extract_of Streamable.base_url).
    destruct (ok (srv [] _)); [|reflexivity].
    unfold await_json. rewrite Hjson.
    cbn [mbind Prog_bind prog_bind]. rewrite Hwe. reflexivity.
  - intros Hjson.
    unfold call, Streamable.clip_streamja_video. rewrite run_request.
    fold (extract_of Streamja.base_url).
    destruct (ok (srv [] _)); [|reflexivity].
    unfold await_json. rewrite Hjson.
    cbn [mbind Prog_bind prog_bind]. rewrite Hwe. reflexivity.
  - intros Hjson.
    unfold call, Streamable.clip_streamwo_video. rewrite run_request.
    fold (extract_of Streamwo.base_url).
    destruct (ok (srv [] _)); [|reflexivity].
    unfold await_json. rewrite Hjson.
    cbn [mbind Prog_bind prog_bind]. rewrite Hwe. reflexivity.
  - rewrite clip_streamff_stops_after_lookup. reflexivity.
Qed.

Lemma clip_stops_on_extract_error_witness :
  let reply :=
    Fixture.response 200 Fixture.empty (Some (JObj Fixture.extract_error_doc)) in
  let srv := Fixture.scripted [reply] in
  call srv (Streamable.clip_video (Lib:=Fixture.lib) "abc123" (Some "Mirror"))
  = ([Sent (Streamable.extract_request (JStr "https://streamable.com/abc123"))],
     Returned reply)
  ∧ call srv (Streamable.clip_streamja_video (Lib:=Fixture.lib) "abc123" None)
    = ([Sent (Streamable.extract_request (JStr "https://streamja.com/abc123"))],
       Returned reply)
  ∧ call srv (Streamable.clip_streamwo_video (Lib:=Fixture.lib) "abc123" None)
    = ([Sent (Streamable.extract_request (JStr "https://streamwo.com/abc123"))],
       Returned reply).
Proof.
  intros reply srv. split; [|split].
  - destruct (clip_stops_on_extract_error (Lib:=Fixture.lib) srv "abc123"
                (Some "Mirror") Fixture.extract_error_doc
                (JStr "Video not found"))
      as (Hclip & _); [reflexivity|discriminate|].
    apply Hclip. reflexivity.
  - destruct (clip_stops_on_extract_error (Lib:=Fixture.lib) srv "abc123"
                None Fixture.extract_error_doc (JStr "Video not found"))
      as (_ & Hja & _); [reflexivity|discriminate|].
    apply Hja. reflexivity.
  - destruct (clip_stops_on_extract_error (Lib:=Fixture.lib) srv "abc123"
                None Fixture.extract_error_doc (JStr "Video not found"))
      as (_ & _ & Hwo & _); [reflexivity|discriminate|].
    apply Hwo. reflexivity.
Defined.

(** ** The upload chain *)

Section UploadChain.
Context `{Lib : PyLib} (srv : Server).
Context (video_content : list byte) (video_filename : string)
        (video_title : option string).

Abbreviation video_sz := (Z.of_nat (length video_content)).
Abbreviation slot := (Streamable.shortcode_request video_sz).

Lemma upload_video_slot_failed :
  ok (srv [] slot) = false →
  call srv (Streamable.upload_video video_content video_filename video_title)
  = ([Sent slot], Returned (srv [] slot)).
Proof.
  intros Hok. unfold call, Streamable.upload_video,
    Streamable.generate_upload_shortcode.
  cbn [BytesIO seekable data negb].
  rewrite run_request. rewrite Hok. reflexivity.
Qed.

Lemma upload_video_after_slot (m creds opts : gmap string JSON)
    (shortcode access_key_id secret_access_key session_token
       transcoder_token : JSON) :
  ok (srv [] slot) = true →
  json (srv [] slot) = Some (JObj m) →
  m !! "shortcode" = Some shortcode →
  m !! "credentials" = Some (JObj creds) →
  creds !! "accessKeyId" = Some access_key_id →
  creds !! "secretAccessKey" = Some secret_access_key →
  creds !! "sessionToken" = Some session_token →
  m !! "transcoder_options" = Some (JObj opts) →
  opts !! "token" = Some transcoder_token →
  let meta :=
    Streamable.metadata_request shortcode video_filename video_sz video_title in
  let transfer :=
    mkS3Upload access_key_id secret_access_key session_token video_content
      "streamables-upload" ("upload/" +:+ py_str shortcode) "public-read" in
  let transcode :=
    Streamable.transcode_upload_request shortcode video_sz transcoder_token in
  call srv (Streamable.upload_video video_content video_filename video_title)
  = if ok (srv [Sent slot] meta)
    then match upload_fileobj transfer with
         | Some e => ([Sent slot; Sent meta], Raised e)
         | None =>
             ([Sent slot; Sent meta; Stored transfer; Sent transcode],
              Returned (srv [Sent slot; Sent meta; Stored transfer] transcode))
         end
    else ([Sent slot; Sent meta], Returned (srv [Sent slot] meta)).
Proof.
  intros Hok Hjson Hsc Hcr Hak Hsk Hst Hto Htk meta transfer transcode.
  unfold call, Streamable.upload_video, Streamable.generate_upload_shortcode.
  cbn [BytesIO seekable data negb].
  rewrite run_request. rewrite Hok.
  unfold await_json. rewrite Hjson.
  cbn [mbind Prog_bind prog_bind getitem].
  rewrite Hsc, Hcr. cbn [mbind Prog_bind prog_bind getitem].
  rewrite Hak, Hsk, Hst. cbn [mbind Prog_bind prog_bind getitem].
  rewrite Hto. cbn [mbind Prog_bind prog_bind getitem].
  rewrite Htk. cbn [mbind Prog_bind prog_bind getitem].
  unfold Streamable.update_video_metadata.
  change (prog_bind ?f (request ?rq)) with (request rq ≫= f).
  rewrite run_request. cbn [app]. fold meta.
  destruct (ok (srv [Sent slot] meta)); [|reflexivity].
  fold transfer. destruct (upload_fileobj transfer); reflexivity.
Qed.

End UploadChain.

(** Subscripts and [await res.json()] issue no request: they yield a
    value or raise. *)
Lemma getitem_pure (x : JSON) (k : string) :
  {v | getitem x k = Ret v} + {e | getitem x k = Raise e}.
Proof.
  destruct x as [| | | | |m]; cbn [getitem]; try (right; eexists; reflexivity).
  destruct (m !! k); [left|right]; eexists; reflexivity.
Qed.

Lemma await_json_pure (res : Response) :
  {v | await_json res = Ret v} + {e | await_json res = Raise e}.
Proof.
  unfold await_json. destruct (json res); [left|right]; eexists; reflexivity.
Qed.

Section UploadOrder.
Context `{Lib : PyLib} (srv : Server).
Context (video_content : list byte) (video_filename : string)
        (video_title : option string).

Abbreviation video_sz := (Z.of_nat (length video_content)).
Abbreviation slot := (Streamable.shortcode_request video_sz).

Lemma upload_video_trace_in_order :
  ∃ shortcode access_key_id secret_access_key session_token transcoder_token,
    (call srv (Streamable.upload_video video_content video_filename
                 video_title)).1
    `prefix_of`
    [ Sent slot;
      Sent (Streamable.metadata_request shortcode video_filename video_sz
              video_title);
      Stored (mkS3Upload access_key_id secret_access_key session_token
                video_content "streamables-upload"
                ("upload/" +:+ py_str shortcode) "public-read");
      Sent (Streamable.transcode_upload_request shortcode video_sz
              transcoder_token) ].
Proof.
  unfold call, Streamable.upload_video, Streamable.generate_upload_shortcode.
  cbn [BytesIO seekable data negb].
  rewrite run_request.
  assert (Hone : ∀ l : list Event, [Sent slot] `prefix_of` Sent slot :: l)
    by (intros l; by exists l).
  destruct (ok (srv [] slot)); [|by exists JNull, JNull, JNull, JNull, JNull].
  destruct (await_json_pure (srv [] slot)) as [[res_json ->]|[e ->]];
    [|by exists JNull, JNull, JNull, JNull, JNull].
  cbn [mbind Prog_bind prog_bind].
  destruct (getitem_pure res_json "shortcode") as [[shortcode ->]|[e ->]];
    [|by exists JNull, JNull, JNull, JNull, JNull].
  exists shortcode. cbn [mbind Prog_bind prog_bind].
  destruct (getitem_pure res_json "credentials") as [[creds ->]|[e ->]];
    [|by exists JNull, JNull, JNull, JNull].
  cbn [mbind Prog_bind prog_bind].
  destruct (getitem_pure creds "accessKeyId") as [[access_key_id ->]|[e ->]];
    [|by exists JNull, JNull, JNull, JNull].
  exists access_key_id. cbn [mbind Prog_bind prog_bind].
  destruct (getitem_pure creds "secretAccessKey")
    as [[secret_access_key ->]|[e ->]]; [|by exists JNull, JNull, JNull].
  exists secret_access_key. cbn [mbind Prog_bind prog_bind].
  destruct (getitem_pure creds "sessionToken") as [[session_token ->]|[e ->]];
    [|by exists JNull, JNull].
  exists session_token. cbn [mbind Prog_bind prog_bind].
  destruct (getitem_pure res_json "transcoder_options") as [[opts ->]|[e ->]];
    [|by exists JNull].
  cbn [mbind Prog_bind prog_bind].
  destruct (getitem_pure opts "token") as [[transcoder_token ->]|[e ->]];
    [|by exists JNull].
  exists transcoder_token. cbn [mbind Prog_bind prog_bind].
  unfold Streamable.update_video_metadata.
  change (prog_bind ?f (request ?rq)) with (request rq ≫= f).
  rewrite run_request. cbn [app].
  destruct (ok (srv [Sent slot] _)); [|by eexists [_; _]].
  destruct (upload_fileobj _); [by eexists [_; _]|reflexivity].
Qed.

End UploadOrder.

(** C2: in [Streamable.upload_video], a slot response that is not ok is
    returned with the slot request as the only call; a metadata response
    that is not ok is returned with the slot and metadata requests as the
    only calls; and in every run the calls are an initial part of the
    sequence slot request, metadata request, storage transfer, transcode
    request. *)
Theorem upload_video_halts_in_order `{Lib : PyLib} (srv : Server)
    (video_content : list byte) (video_filename : string)
    (video_title : option string) :
  let video_sz := Z.of_nat (length video_content) in
  let slot := Streamable.shortcode_request video_sz in
  (ok (srv [] slot) = false →
   call srv (Streamable.upload_video video_content video_filename video_title)
   = ([Sent slot], Returned (srv [] slot)))
  ∧ (∀ (m creds opts : gmap string JSON)
       (shortcode access_key_id secret_access_key session_token
          transcoder_token : JSON),
       ok (srv [] slot) = true →
       json (srv [] slot) = Some (JObj m) →
       m !! "shortcode" = Some shortcode →
       m !! "credentials" = Some (JObj creds) →
       creds !! "accessKeyId" = Some access_key_id →
       creds !! "secretAccessKey" = Some secret_access_key →
       creds !! "sessionToken" = Some session_token →
       m !! "transcoder_options" = Some (JObj opts) →
       opts !! "token" = Some transcoder_token →
       let meta :=
         Streamable.metadata_request shortcode video_filename video_sz
           video_title in
       ok (srv [Sent slot] meta) = false →
       call srv (Streamable.upload_video video_content video_filename
                   video_title)
       = ([Sent slot; Sent meta], Returned (srv [Sent slot] meta)))
  ∧ ∃ shortcode access_key_id secret_access_key session_token
      transcoder_token,
      (call srv (Streamable.upload_video video_content video_filename
                   video_title)).1
      `prefix_of`
      [ Sent slot;
        Sent (Streamable.metadata_request shortcode video_filename video_sz
                video_title);
        Stored (mkS3Upload access_key_id secret_access_key session_token
                  video_content "streamables-upload"
                  ("upload/" +:+ py_str shortcode) "public-read");
        Sent (Streamable.transcode_upload_request shortcode video_sz
                transcoder_token) ].
Proof.
  intros video_sz slot. split; [|split].
  - apply upload_video_slot_failed.
  - intros m creds opts shortcode access_key_id secret_access_key
      session_token transcoder_token Hok Hjson Hsc Hcr Hak Hsk Hst Hto Htk
      meta Hmeta.
    rewrite (upload_video_after_slot srv video_content video_filename
               video_title m creds opts shortcode access_key_id
               secret_access_key session_token transcoder_token)
      by assumption.
    cbv zeta. fold video_sz slot meta. rewrite Hmeta. reflexivity.
  - apply upload_video_trace_in_order.
Qed.

Lemma upload_video_halts_witness :
  let content := [x00; x00; x00; x18; x66; x74; x79; x70; x6d]%byte in
  let no_slot := Fixture.scripted [Fixture.response 500 Fixture.empty None] in
  let no_meta :=
    Fixture.scripted [Fixture.response 200 Fixture.empty (Some (JObj Fixture.slot_doc));
                      Fixture.response 403 Fixture.empty None] in
  let slot := Streamable.shortcode_request 9 in
  let meta :=
    Streamable.metadata_request (Lib:=Fixture.lib) (JStr "ab12c") "clip.mp4" 9
      None in
  call no_slot (Streamable.upload_video (Lib:=Fixture.lib) content "clip.mp4" None)
  = ([Sent slot], Returned (Fixture.response 500 Fixture.empty None))
  ∧ call no_meta
      (Streamable.upload_video (Lib:=Fixture.lib) content "clip.mp4" None)
    = ([Sent slot; Sent meta], Returned (Fixture.response 403 Fixture.empty None)).
Proof.
  intros content no_slot no_meta slot meta. split.
  - apply (upload_video_halts_in_order (Lib:=Fixture.lib) no_slot content).
    reflexivity.
  - destruct (upload_video_halts_in_order (Lib:=Fixture.lib) no_meta content
                "clip.mp4" None) as (_ & Hmeta & _).
    eapply (Hmeta Fixture.slot_doc); reflexivity.
Defined.

(** The title of that metadata request is the stem of the filename. *)
Example upload_video_default_title :
  json_field (Streamable.metadata_request (Lib:=Fixture.lib) (JStr "ab12c")
                "clip.mp4" 9 None) "title"
  = Some (JStr "clip").
Proof. reflexivity. Qed.

Section ClipShortcode.
Context `{Lib : PyLib} (srv : Server).
Context (video_id : string) (mirror_title : option string).
Context (m : gmap string JSON) (shortcode_vid_url shortcode_vid_headers : JSON).
Hypothesis Hclean : m !! "error" = None ∨ m !! "error" = Some JNull.
Hypothesis Hurl : m !! "url" = Some shortcode_vid_url.
Hypothesis Hheaders : m !! "headers" = Some shortcode_vid_headers.

(** The part of a clip chain after the extract response has passed the
    first test, for any extractor and shortcode request. *)
Lemma run_clip_tail (extractor : string) (extract generate : Request) :
  ok (srv [Sent extract] generate) = true →
  run srv [Sent extract]
    (shortcode_vid_url ← getitem (JObj m) "url";
     shortcode_vid_headers ← getitem (JObj m) "headers";
     res ← request generate;
     '(c, respJsonData) ← Streamable.ok_or_without_error res (JObj m);
     if (c : bool) then
       new_mirror_shortcode ← getitem respJsonData "shortcode";
       request (Streamable.clip_transcode_request extractor
                  shortcode_vid_headers new_mirror_shortcode mirror_title
                  shortcode_vid_url)
     else Ret res)
  = clip_outcome srv extractor extract generate m shortcode_vid_headers
      shortcode_vid_url mirror_title.
Proof.
  intros Hok. cbn [getitem]. rewrite Hurl, Hheaders.
  cbn [mbind Prog_bind prog_bind].
  change (prog_bind ?f (request ?rq)) with (request rq ≫= f).
  rewrite run_request. cbn [app].
  unfold Streamable.ok_or_without_error. rewrite Hok.
  cbn [mbind Prog_bind prog_bind getitem]. unfold clip_outcome.
  destruct (m !! "shortcode"); reflexivity.
Qed.

End ClipShortcode.

(** C7: in [clip_video] and [clip_streamwo_video], when the extract
    response is ok, its document [m] is an object without an error that
    has [url] and [headers], and the shortcode response is ok, the third
    and last request is a [POST] to the transcode endpoint of
    [m["shortcode"]] whose document carries [m["shortcode"]] as
    [shortcode], [m["url"]] as [url] and [m["headers"]] as [headers] (and
    the call raises [KeyError] when [m] has no [shortcode]); the document
    of the shortcode response is not read.  [clip_streamff_video] issues
    its lookup request and nothing else in every run, so it has no such
    execution. *)
Theorem clip_shortcode_read_from_extract `{Lib : PyLib} (srv : Server)
    (video_id : string) (mirror_title : option string)
    (m : gmap string JSON) (shortcode_vid_url shortcode_vid_headers : JSON) :
  m !! "error" = None ∨ m !! "error" = Some JNull →
  m !! "url" = Some shortcode_vid_url →
  m !! "headers" = Some shortcode_vid_headers →
  (let source := Streamable.base_url +:+ "/" +:+ video_id in
   let extract := Streamable.extract_request (JStr source) in
   let generate :=
     Streamable.clip_shortcode_request "streamable" source video_id
       mirror_title in
   ok (srv [] extract) = true →
   json (srv [] extract) = Some (JObj m) →
   ok (srv [Sent extract] generate) = true →
   call srv (Streamable.clip_video video_id mirror_title)
   = clip_outcome srv "streamable" extract generate m shortcode_vid_headers
       shortcode_vid_url mirror_title
   ∧ sends_shortcode_of srv "streamable" extract generate m
       shortcode_vid_headers shortcode_vid_url
       (call srv (Streamable.clip_video video_id mirror_title))
   ∧ extract
     = mkRequest GET "https://ajax.streamable.com/extract"
         {[ "url" := JStr ("https://streamable.com/" +:+ video_id) ]} NoBody
   ∧ method generate = POST
   ∧ url generate = "https://ajax.streamable.com/videos"
   ∧ json_field generate "extract_id" = Some (JStr video_id))
  ∧ (let source := Streamwo.base_url +:+ "/" +:+ video_id in
     let extract := Streamable.extract_request (JStr source) in
     let generate :=
       Streamable.clip_shortcode_request "generic" source video_id
         mirror_title in
     ok (srv [] extract) = true →
     json (srv [] extract) = Some (JObj m) →
     ok (srv [Sent extract] generate) = true →
     call srv (Streamable.clip_streamwo_video video_id mirror_title)
     = clip_outcome srv "generic" extract generate m shortcode_vid_headers
         shortcode_vid_url mirror_title
     ∧ sends_shortcode_of srv "generic" extract generate m
         shortcode_vid_headers shortcode_vid_url
         (call srv (Streamable.clip_streamwo_video video_id mirror_title))
     ∧ extract
       = mkRequest GET "https://ajax.streamable.com/extract"
           {[ "url" := JStr ("https://streamwo.com/" +:+ video_id) ]} NoBody
     ∧ method generate = POST
     ∧ url generate = "https://ajax.streamable.com/videos"
     ∧ json_field generate "extract_id" = Some (JStr video_id))
  ∧ (call srv (Streamable.clip_streamff_video video_id mirror_title)).1
    = [Sent (Streamable.streamff_lookup_request video_id)].
Proof.
  intros Hclean Hurl Hheaders.
  assert (Hread : ∀ extractor extract generate result,
            result = clip_outcome srv extractor extract generate m
                       shortcode_vid_headers shortcode_vid_url mirror_title →
            sends_shortcode_of srv extractor extract generate m
              shortcode_vid_headers shortcode_vid_url result).
  { intros extractor extract generate result ->.
    unfold clip_outcome, sends_shortcode_of.
    destruct (m !! "shortcode") as [sc|]; [|reflexivity].
    eexists. split; [reflexivity|]. repeat split. }
  split; [|split].
  - intros source extract generate Hok Hjson Hgen.
    assert (Hrun : call srv (Streamable.clip_video video_id mirror_title)
                   = clip_outcome srv "streamable" extract generate m
                       shortcode_vid_headers shortcode_vid_url mirror_title).
    { unfold call, Streamable.clip_video. rewrite run_request.
      fold source extract.
      rewrite Hok. unfold await_json. rewrite Hjson.
      cbn [mbind Prog_bind prog_bind]. rewrite (without_error_clean m Hclean).
      cbn [mbind Prog_bind prog_bind app].
      by apply (run_clip_tail srv mirror_title m shortcode_vid_url
                  shortcode_vid_headers). }
    split; [exact Hrun|]. split; [by apply Hread|]. repeat split.
  - intros source extract generate Hok Hjson Hgen.
    assert (Hrun : call srv (Streamable.clip_streamwo_video video_id
                               mirror_title)
                   = clip_outcome srv "generic" extract generate m
                       shortcode_vid_headers shortcode_vid_url mirror_title).
    { unfold call, Streamable.clip_streamwo_video. rewrite run_request.
      fold source extract.
      rewrite Hok. unfold await_json. rewrite Hjson.
      cbn [mbind Prog_bind prog_bind]. rewrite (without_error_clean m Hclean).
      cbn [mbind Prog_bind prog_bind app].
      by apply (run_clip_tail srv mirror_title m shortcode_vid_url
                  shortcode_vid_headers). }
    split; [exact Hrun|]. split; [by apply Hread|]. repeat split.
  - rewrite clip_streamff_stops_after_lookup. reflexivity.
Qed.

Lemma clip_shortcode_witness :
  let headers := JObj {[ "Referer" := JStr "https://streamable.com/" ]} in
  let media := JStr "https://cdn.example/abc123.mp4" in
  let extract :=
    Streamable.extract_request (JStr "https://streamable.com/abc123") in
  let generate :=
    Streamable.clip_shortcode_request "streamable"
      "https://streamable.com/abc123" "abc123" (Some "Mirror") in
  let srv :=
    Fixture.scripted
      [Fixture.response 200 Fixture.empty
         (Some (JObj Fixture.extract_doc_with_shortcode));
       Fixture.response 200 Fixture.empty (Some (JObj Fixture.shortcode_doc));
       Fixture.response 200 Fixture.empty None] in
  let bare :=
    Fixture.scripted
      [Fixture.response 200 Fixture.empty (Some (JObj Fixture.extract_doc));
       Fixture.response 200 Fixture.empty (Some (JObj Fixture.shortcode_doc));
       Fixture.response 200 Fixture.empty None] in
  (∃ transcode,
     call srv (Streamable.clip_video (Lib:=Fixture.lib) "abc123" (Some "Mirror"))
     = ([Sent extract; Sent generate; Sent transcode],
        Returned (Fixture.response 200 Fixture.empty None))
     ∧ url transcode = "https://ajax.streamable.com/transcode/xt7"
     ∧ json_field transcode "shortcode" = Some (JStr "xt7"))
  ∧ call bare (Streamable.clip_video (Lib:=Fixture.lib) "abc123" (Some "Mirror"))
    = ([Sent extract; Sent generate], Raised (KeyError "shortcode")).
Proof.
  intros headers media extract generate srv bare. split.
  - destruct (clip_shortcode_read_from_extract (Lib:=Fixture.lib) srv "abc123"
                (Some "Mirror") Fixture.extract_doc_with_shortcode media headers)
      as (Hclip & _); [by left|reflexivity|reflexivity|].
    destruct Hclip as (_ & Hsends & _); [reflexivity|reflexivity|reflexivity|].
    destruct Hsends as (transcode & Hrun & _ & Hto & Hsc & _).
    exists transcode. rewrite Hrun. repeat split; assumption.
  - destruct (clip_shortcode_read_from_extract (Lib:=Fixture.lib) bare "abc123"
                (Some "Mirror") Fixture.extract_doc media headers)
      as (Hclip & _); [by left|reflexivity|reflexivity|].
    destruct Hclip as [Hrun _]; [reflexivity|reflexivity|reflexivity|].
    rewrite Hrun; reflexivity.
Defined.

(** C1 fails on the shortcode step of [clip_video].  When the response
    to the shortcode request is a 500 whose document has no [error]
    member, the chain goes on: it posts the transcode request for the
    shortcode of that document and returns the response to it.  When the
    response is a 502 whose body is no JSON document, the call raises
    instead of returning the response. *)
Theorem clip_video_goes_on_after_failed_shortcode :
  let extract :=
    Streamable.extract_request (JStr "https://streamable.com/abc123") in
  let generate :=
    Streamable.clip_shortcode_request "streamable"
      "https://streamable.com/abc123" "abc123" (Some "Mirror") in
  let transcode :=
    Streamable.clip_transcode_request (Lib:=Fixture.lib) "streamable"
      (JObj {[ "Referer" := JStr "https://streamable.com/" ]}) (JStr "zz9")
      (Some "Mirror") (JStr "https://cdn.example/abc123.mp4") in
  let srv :=
    Fixture.scripted
      [Fixture.response 200 Fixture.empty (Some (JObj Fixture.extract_doc));
       Fixture.response 500 Fixture.empty (Some (JObj Fixture.shortcode_doc));
       Fixture.response 200 Fixture.empty None] in
  let gateway :=
    Fixture.scripted
      [Fixture.response 200 Fixture.empty (Some (JObj Fixture.extract_doc));
       Fixture.response 502 "<html>Bad Gateway</html>" None] in
  (ok (srv [Sent extract] generate) = false
   ∧ call srv (Streamable.clip_video (Lib:=Fixture.lib) "abc123" (Some "Mirror"))
     = ([Sent extract; Sent generate; Sent transcode],
        Returned (Fixture.response 200 Fixture.empty None)))
  ∧ (ok (gateway [Sent extract] generate) = false
     ∧ call gateway
         (Streamable.clip_video (Lib:=Fixture.lib) "abc123" (Some "Mirror"))
       = ([Sent extract; Sent generate], Raised JSONError)).
Proof.
  intros extract generate transcode srv gateway.
  split; split; vm_compute; reflexivity.
Qed.

(** In [clip_streamja_video] the shortcode is read with
    [res.json()["shortcode"]], without [await]: once the second test has
    passed the call raises [TypeError], and no transcode request is
    issued. *)
Example clip_streamja_raises_before_transcode :
  let extract :=
    Streamable.extract_request (JStr "https://streamja.com/abc123") in
  let generate :=
    Streamable.clip_shortcode_request "generic"
      "https://streamja.com/abc123" "abc123" (Some "Mirror") in
  let srv :=
    Fixture.scripted
      [Fixture.response 200 Fixture.empty (Some (JObj Fixture.extract_doc));
       Fixture.response 200 Fixture.empty (Some (JObj Fixture.shortcode_doc));
       Fixture.response 200 Fixture.empty None] in
  call srv (Streamable.clip_streamja_video (Lib:=Fixture.lib) "abc123"
              (Some "Mirror"))
  = ([Sent extract; Sent generate], Raised TypeError).
Proof. reflexivity. Qed.

(** ** Other chains: the first failed response is returned *)

(** [JustStreamLive.mirror_streamff_video] returns the response of a
    failed lookup and issues no upload. *)
Lemma mirror_streamff_failed_lookup `{Lib : PyLib} (srv : Server)
    (video_id mirror_filename : string) :
  ok (srv [] (Streamff.page_request video_id)) = false →
  call srv (JustStreamLive.mirror_streamff_video video_id mirror_filename)
  = ([Sent (Streamff.page_request video_id)],
     Returned (srv [] (Streamff.page_request video_id))).
Proof.
  intros Hok. unfold call, JustStreamLive.mirror_streamff_video.
  rewrite run_bind.
  assert (Hget : run srv [] (Streamff.get_video video_id)
                 = ([Sent (Streamff.page_request video_id)],
                    Returned (srv [] (Streamff.page_request video_id)))).
  { unfold Streamff.get_video. rewrite run_request, Hok. reflexivity. }
  rewrite Hget. cbn [run]. rewrite Hok. reflexivity.
Qed.

(** [Streamja.upload_video] returns a failed response to its shortcode
    request and issues no upload. *)
Lemma streamja_upload_failed_shortcode `{Lib : PyLib} (srv : Server)
    (video_content : list byte) (video_filename : string) :
  let slot :=
    mkRequest POST (Streamja.base_url +:+ "/shortId.php") ∅
      (DataBody {[ "new" := JNum 1 ]}) in
  ok (srv [] slot) = false →
  call srv (Streamja.upload_video video_content video_filename)
  = ([Sent slot], Returned (srv [] slot)).
Proof.
  intros slot Hok. unfold call, Streamja.upload_video,
    Streamja.generate_upload_shortcode.
  rewrite run_request. fold slot. rewrite Hok. reflexivity.
Qed.

(** ** The session set-up *)

Lemma session_setup_cases (default_user_agent : string)
    (new_session : ClientSession) (session : option ClientSession)
    (user_agent : option string) :
  let given := default new_session session in
  let result :=
    _client_session_setup default_user_agent new_session session user_agent in
  (∃ v, headers given !! USER_AGENT = Some v ∧ result = given)
  ∨ (headers given !! USER_AGENT = None
     ∧ result
       = mkSession (<[ USER_AGENT := default default_user_agent user_agent ]>
                      (headers given))).
Proof.
  intros given result. subst result. unfold _client_session_setup.
  replace (match session with Some s => s | None => new_session end)
    with given by (by destruct session).
  destruct (headers given !! USER_AGENT) as [v|] eqn:Hua.
  - left. by exists v.
  - right. split; [reflexivity|]. by destruct user_agent.
Qed.

(** X1: the session that [_client_session_setup] returns always has a
    [User-Agent] header; when the session it was given (or the new one it
    made) had none, the header is [user_agent] if supplied and
    [default_user_agent] otherwise. *)
Theorem session_setup_sets_user_agent (default_user_agent : string)
    (new_session : ClientSession) (session : option ClientSession)
    (user_agent : option string) :
  let given := default new_session session in
  let result :=
    _client_session_setup default_user_agent new_session session user_agent in
  is_Some (headers result !! USER_AGENT)
  ∧ (headers given !! USER_AGENT = None →
     headers result !! USER_AGENT
     = Some (default default_user_agent user_agent)).
Proof.
  intros given result. subst given result.
  destruct (session_setup_cases default_user_agent new_session session
              user_agent) as [(v & Hv & Heq)|[Hnone Heq]];
    cbv zeta in Heq; rewrite Heq.
  - rewrite Hv. split; [by eexists|discriminate].
  - cbn [headers]. rewrite lookup_insert_eq. split; [by eexists|reflexivity].
Qed.

Lemma session_setup_sets_witness :
  headers (_client_session_setup "aioeXVHP/0" (mkSession ∅)
             (Some (mkSession {[ "Accept" := "*/*" ]})) (Some "probe/1"))
    !! USER_AGENT
  = Some "probe/1".
Proof.
  apply (session_setup_sets_user_agent "aioeXVHP/0" (mkSession ∅)
           (Some (mkSession {[ "Accept" := "*/*" ]})) (Some "probe/1")).
  reflexivity.
Defined.

(** X2: [_client_session_setup] never overwrites: every header of the
    given session, [User-Agent] included, is in the result with the same
    value, and no header other than [User-Agent] is added. *)
Theorem session_setup_keeps_headers (default_user_agent : string)
    (new_session : ClientSession) (session : option ClientSession)
    (user_agent : option string) :
  let given := default new_session session in
  let result :=
    _client_session_setup default_user_agent new_session session user_agent in
  (∀ k v, headers given !! k = Some v → headers result !! k = Some v)
  ∧ (∀ k, k ≠ USER_AGENT → headers result !! k = headers given !! k).
Proof.
  intros given result. subst given result.
  destruct (session_setup_cases default_user_agent new_session session
              user_agent) as [(v & Hv & Heq)|[Hnone Heq]];
    cbv zeta in Heq; rewrite Heq; [by split|].
  cbn [headers]. split.
  - intros k v Hk. destruct (decide (k = USER_AGENT)) as [->|Hne].
    + congruence.
    + by rewrite lookup_insert_ne.
  - intros k Hne. by rewrite lookup_insert_ne.
Qed.

Lemma session_setup_keeps_witness :
  let given :=
    mkSession {[ "User-Agent" := "caller/2.0"; "Accept" := "*/*" ]} in
  let result :=
    _client_session_setup "aioeXVHP/0" (mkSession ∅) (Some given)
      (Some "probe/1") in
  headers result !! "User-Agent" = Some "caller/2.0"
  ∧ headers result !! "Accept" = headers given !! "Accept".
Proof.
  intros given result.
  destruct (session_setup_keeps_headers "aioeXVHP/0" (mkSession ∅)
              (Some given) (Some "probe/1")) as [Hkeep Hother].
  split.
  - apply Hkeep. reflexivity.
  - apply Hother. discriminate.
Defined.

(** X3: setting up a session that was already set up changes nothing,
    whatever the second caller passes as [user_agent] and default; this is
    what happens when one client hands its session to another. *)
Theorem session_setup_idempotent (d d' : string) (n n' : ClientSession)
    (session : option ClientSession) (ua ua' : option string) :
  _client_session_setup d' n' (Some (_client_session_setup d n session ua)) ua'
  = _client_session_setup d n session ua.
Proof.
  pose proof (session_setup_sets_user_agent d n session ua) as [[v Hv] _].
  set (s := _client_session_setup d n session ua) in *.
  unfold _client_session_setup at 1. by rewrite Hv.
Qed.

(** ** Imgur *)

(** X4: every method of the Imgur client issues one request and returns
    the response to it, and that request carries the client identifier as
    the query parameter [client_id]; for [upload_media] this holds for the
    filenames it accepts. *)
Theorem imgur_requests_carry_client_id `{Lib : PyLib} (srv : Server) :
  let identified (p : Prog Response) :=
    ∃ rq, call srv p = ([Sent rq], Returned (srv [] rq))
          ∧ params rq !! "client_id" = Some (JStr "546c25a59c58ad7") in
  identified Imgur.generate_album
  ∧ (∀ tickets, identified (Imgur.poll_upload_tickets tickets))
  ∧ (∀ deletehash metadata,
       identified (Imgur.update_album_metadata deletehash metadata))
  ∧ (∀ deletehash metadata,
       identified (Imgur.update_media_metadata deletehash metadata))
  ∧ (∀ deletehash, identified (Imgur.delete_album deletehash))
  ∧ (∀ deletehash, identified (Imgur.delete_media deletehash))
  ∧ (∀ album media, identified (Imgur.add_media_to_album album media))
  ∧ (∀ album cover medias, identified (Imgur.arrange_album album cover medias))
  ∧ (∀ total answer, identified (Imgur.check_captcha total answer))
  ∧ (∀ media_content media_filename,
       endswith media_filename ".mp4" = true →
       identified (Imgur.upload_media media_content media_filename)).
Proof.
  intros identified. subst identified. cbv beta.
  repeat apply conj; intros; try (eexists; split; reflexivity).
  unfold call, Imgur.upload_media.
  match goal with H : endswith _ _ = true |- _ => rewrite H end.
  eexists; split; reflexivity.
Qed.

Lemma imgur_client_id_witness :
  ∃ rq,
    call (Fixture.scripted [Fixture.response 200 Fixture.empty None])
         (Imgur.upload_media (Lib:=Fixture.lib) [] "clip.mp4")
    = ([Sent rq], Returned (Fixture.response 200 Fixture.empty None))
    ∧ params rq !! "client_id" = Some (JStr "546c25a59c58ad7").
Proof.
  destruct (imgur_requests_carry_client_id (Lib:=Fixture.lib)
              (Fixture.scripted [Fixture.response 200 Fixture.empty None]))
    as (_ & _ & _ & _ & _ & _ & _ & _ & _ & Hupload).
  apply (Hupload [] "clip.mp4"). reflexivity.
Defined.

(** ** Streamwo upload identifiers *)

Lemma alphabet_is_alnum (k : nat) :
  (k < 62)%nat →
  ∃ c, String.get k (Streamwo.ascii_letters +:+ Streamwo.digits) = Some c
       ∧ is_alnum c = true.
Proof.
  intros Hk.
  assert (Hall :
    forallb (λ i, match String.get i (Streamwo.ascii_letters +:+ Streamwo.digits)
                  with
                  | Some c => is_alnum c
                  | None => false
                  end) (seq 0 62) = true) by (vm_compute; reflexivity).
  rewrite forallb_forall in Hall. specialize (Hall k).
  destruct (String.get k _) as [c|]; [|discriminate Hall; apply in_seq; lia].
  exists c. split; [reflexivity|]. apply Hall, in_seq. lia.
Qed.

Lemma choice_is_alnum (r : nat) :
  is_alnum (Streamwo.choice r (Streamwo.ascii_letters +:+ Streamwo.digits))
  = true.
Proof.
  unfold Streamwo.choice.
  change (String.length (Streamwo.ascii_letters +:+ Streamwo.digits)) with 62%nat.
  destruct (alphabet_is_alnum (r mod 62)) as (c & -> & Hc); [|exact Hc].
  apply Nat.mod_upper_bound. discriminate.
Qed.

(** X5: whatever the random draws, the identifier that
    [Streamwo.generate_upload_id] makes has seven characters, each an
    ASCII letter or digit, and [Streamwo.upload_video] issues one request,
    with that identifier as the query parameter [id] and with
    [action=upload]. *)
Theorem streamwo_upload_id_format `{Lib : PyLib} (srv : Server)
    (draws : nat → nat) (video_content : list byte) (video_filename : string) :
  let upload_id := Streamwo.generate_upload_id draws in
  String.length upload_id = 7%nat
  ∧ Forall (λ c, is_alnum c = true) (list_ascii_of_string upload_id)
  ∧ ∃ rq,
      call srv (Streamwo.upload_video draws video_content video_filename)
      = ([Sent rq], Returned (srv [] rq))
      ∧ params rq !! "id" = Some (JStr upload_id)
      ∧ params rq !! "action" = Some (JStr "upload").
Proof.
  intros upload_id. subst upload_id. unfold Streamwo.generate_upload_id.
  split; [reflexivity|split].
  - rewrite list_ascii_of_string_of_list_ascii.
    apply Forall_fmap, Forall_forall. intros i _. apply choice_is_alnum.
  - eexists. split; [reflexivity|]. split; reflexivity.
Qed.

(** ** More on the upload chain *)

(** X6: a call of [Streamable.upload_video] that ends in an exception
    has sent no transcode request and stored nothing.  Either the file
    object cannot seek, and no call was made; or the exception came from
    reading the document of an ok slot response, and the slot request is
    the only call; or the transfer to storage raised it, after the slot
    and metadata requests. *)
Theorem upload_video_raises_before_transcode `{Lib : PyLib} (srv : Server)
    (video_content : Reader) (video_filename : string)
    (video_title : option string) (tr : list Event) (e : Exn) :
  let slot :=
    Streamable.shortcode_request (Z.of_nat (length (data video_content))) in
  call srv (Streamable.upload_video video_content video_filename video_title)
  = (tr, Raised e) →
  (seekable video_content = false ∧ tr = [] ∧ e = UnsupportedOperation)
  ∨ (seekable video_content = true ∧ tr = [Sent slot]
     ∧ ok (srv [] slot) = true)
  ∨ (seekable video_content = true
     ∧ ∃ meta transfer,
         tr = [Sent slot; Sent meta]
         ∧ method meta = PUT
         ∧ ok (srv [] slot) = true
         ∧ ok (srv [Sent slot] meta) = true
         ∧ fileobj transfer = data video_content
         ∧ upload_fileobj transfer = Some e).
Proof.
  intros slot. unfold call, Streamable.upload_video,
    Streamable.generate_upload_shortcode.
  destruct (seekable video_content); cbn [negb];
    [|intros [= <- <-]; by left].
  rewrite run_request. fold slot.
  destruct (ok (srv [] slot)); [|discriminate].
  destruct (await_json_pure (srv [] slot)) as [[res_json ->]|[e' ->]];
    [|intros [= <- _]; right; by left].
  cbn [mbind Prog_bind prog_bind].
  destruct (getitem_pure res_json "shortcode") as [[shortcode ->]|[e' ->]];
    [|intros [= <- _]; right; by left].
  cbn [mbind Prog_bind prog_bind].
  destruct (getitem_pure res_json "credentials") as [[creds ->]|[e' ->]];
    [|intros [= <- _]; right; by left].
  cbn [mbind Prog_bind prog_bind].
  destruct (getitem_pure creds "accessKeyId") as [[access_key_id ->]|[e' ->]];
    [|intros [= <- _]; right; by left].
  cbn [mbind Prog_bind prog_bind].
  destruct (getitem_pure creds "secretAccessKey")
    as [[secret_access_key ->]|[e' ->]]; [|intros [= <- _]; right; by left].
  cbn [mbind Prog_bind prog_bind].
  destruct (getitem_pure creds "sessionToken") as [[session_token ->]|[e' ->]];
    [|intros [= <- _]; right; by left].
  cbn [mbind Prog_bind prog_bind].
  destruct (getitem_pure res_json "transcoder_options") as [[opts ->]|[e' ->]];
    [|intros [= <- _]; right; by left].
  cbn [mbind Prog_bind prog_bind].
  destruct (getitem_pure opts "token") as [[transcoder_token ->]|[e' ->]];
    [|intros [= <- _]; right; by left].
  cbn [mbind Prog_bind prog_bind].
  unfold Streamable.update_video_metadata.
  change (prog_bind ?f (request ?rq)) with (request rq ≫= f).
  rewrite run_request. cbn [app].
  destruct (ok (srv [Sent slot] _)) eqn:Hmeta; [|discriminate].
  destruct (upload_fileobj _) as [e'|] eqn:Hstore; [|discriminate].
  intros [= <- <-]. right; right. split; [reflexivity|].
  match type of Hmeta with
  | ok (srv _ ?meta) = _ =>
      match type of Hstore with
      | upload_fileobj ?transfer = _ => exists meta, transfer
      end
  end.
  split; [reflexivity|]. split; [reflexivity|]. split; [reflexivity|].
  split; [exact Hmeta|]. split; [reflexivity|exact Hstore].
Qed.

Lemma upload_video_raises_witness :
  let srv := Fixture.scripted [] in
  let pipe := mkReader [x00; x01]%byte false in
  call srv (Streamable.upload_video (Lib:=Fixture.lib) pipe "clip.mp4" None)
  = ([], Raised UnsupportedOperation)
  ∧ seekable pipe = false.
Proof.
  intros srv pipe. split; [reflexivity|].
  destruct (upload_video_raises_before_transcode (Lib:=Fixture.lib) srv pipe
              "clip.mp4" None [] UnsupportedOperation eq_refl)
    as [(Hpipe & _)|[(Hseek & _)|(Hseek & _)]];
    [exact Hpipe|discriminate Hseek|discriminate Hseek].
Defined.

(** A transfer that the store refuses: the exception comes out after the
    slot and metadata requests, and no transcode request is sent. *)
Example upload_video_refused_transfer :
  let srv :=
    Fixture.scripted
      [Fixture.response 200 Fixture.empty (Some (JObj Fixture.slot_doc));
       Fixture.response 200 Fixture.empty None] in
  call srv (Streamable.upload_video (Lib:=Refused.lib) [x00; x01]%byte
              "clip.mp4" None)
  = ([Sent (Streamable.shortcode_request 2);
      Sent (Streamable.metadata_request (Lib:=Refused.lib) (JStr "ab12c")
              "clip.mp4" 2 None)],
     Raised (StorageError "AccessDenied")).
Proof. reflexivity. Qed.

(** X7: [Streamable.upload_video] on a file object that can seek, when
    the slot response is ok with a complete document, the metadata
    response is ok and the transfer to storage does not raise: the call
    makes its four calls and returns the transcode response.  The
    metadata request, the transfer and the transcode request all use the
    shortcode of the slot document, the transfer uses its credentials
    and holds the whole content, the size sent is the length of the
    content, and the [url] given to the transcoder is the bucket's
    address followed by the key the content was stored under. *)
Theorem upload_video_uses_one_shortcode `{Lib : PyLib} (srv : Server)
    (video_content : Reader) (video_filename : string)
    (video_title : option string) (m creds opts : gmap string JSON)
    (shortcode access_key_id secret_access_key session_token
       transcoder_token : JSON) :
  let video_sz := Z.of_nat (length (data video_content)) in
  let slot := Streamable.shortcode_request video_sz in
  let meta :=
    Streamable.metadata_request shortcode video_filename video_sz video_title in
  let transfer :=
    mkS3Upload access_key_id secret_access_key session_token
      (data video_content) "streamables-upload"
      ("upload/" +:+ py_str shortcode) "public-read" in
  seekable video_content = true →
  ok (srv [] slot) = true →
  json (srv [] slot) = Some (JObj m) →
  m !! "shortcode" = Some shortcode →
  m !! "credentials" = Some (JObj creds) →
  creds !! "accessKeyId" = Some access_key_id →
  creds !! "secretAccessKey" = Some secret_access_key →
  creds !! "sessionToken" = Some session_token →
  m !! "transcoder_options" = Some (JObj opts) →
  opts !! "token" = Some transcoder_token →
  ok (srv [Sent slot] meta) = true →
  upload_fileobj transfer = None →
  ∃ transcode,
    call srv (Streamable.upload_video video_content video_filename video_title)
    = ([Sent slot; Sent meta; Stored transfer; Sent transcode],
       Returned (srv [Sent slot; Sent meta; Stored transfer] transcode))
    ∧ slot
      = mkRequest GET "https://ajax.streamable.com/shortcode"
          {[ "version" := JStr "03db98af3545197e67cb96893d9e9d8729eee743";
             "size" := JNum video_sz ]} NoBody
    ∧ method meta = PUT
    ∧ url meta
      = "https://ajax.streamable.com/videos/" +:+ py_str shortcode
    ∧ json_field meta "original_name" = Some (JStr video_filename)
    ∧ json_field meta "original_size" = Some (JNum video_sz)
    ∧ method transcode = POST
    ∧ url transcode
      = "https://ajax.streamable.com/transcode/" +:+ py_str shortcode
    ∧ json_field transcode "shortcode" = Some shortcode
    ∧ json_field transcode "token" = Some transcoder_token
    ∧ json_field transcode "size" = Some (JNum video_sz)
    ∧ json_field transcode "url"
      = Some (JStr ("https://streamables-upload.s3.amazonaws.com/"
                    +:+ key transfer)).
Proof.
  intros video_sz slot meta transfer Hseek Hok Hjson Hsc Hcr Hak Hsk Hst Hto
    Htk Hmeta Hstore.
  assert (Hrun :
    call srv (Streamable.upload_video video_content video_filename video_title)
    = ([Sent slot; Sent meta; Stored transfer;
        Sent (Streamable.transcode_upload_request shortcode video_sz
                transcoder_token)],
       Returned (srv [Sent slot; Sent meta; Stored transfer]
                   (Streamable.transcode_upload_request shortcode video_sz
                      transcoder_token)))).
  { unfold call, Streamable.upload_video, Streamable.generate_upload_shortcode.
    rewrite Hseek. cbn [negb].
    rewrite run_request. fold video_sz slot. rewrite Hok.
    unfold await_json. rewrite Hjson.
    cbn [mbind Prog_bind prog_bind getitem].
    rewrite Hsc, Hcr. cbn [mbind Prog_bind prog_bind getitem].
    rewrite Hak, Hsk, Hst. cbn [mbind Prog_bind prog_bind getitem].
    rewrite Hto. cbn [mbind Prog_bind prog_bind getitem].
    rewrite Htk. cbn [mbind Prog_bind prog_bind getitem].
    unfold Streamable.update_video_metadata.
    change (prog_bind ?f (request ?rq)) with (request rq ≫= f).
    rewrite run_request. cbn [app]. fold meta. rewrite Hmeta.
    fold transfer. rewrite Hstore. reflexivity. }
  eexists. split; [exact Hrun|]. repeat split.
Qed.

Lemma upload_video_shortcode_witness :
  let srv :=
    Fixture.scripted
      [Fixture.response 200 Fixture.empty (Some (JObj Fixture.slot_doc));
       Fixture.response 200 Fixture.empty None;
       Fixture.response 200 Fixture.empty None] in
  ∃ transfer transcode,
    (call srv (Streamable.upload_video (Lib:=Fixture.lib) [x00; x01]%byte
                 "clip.mp4" None)).1
    = [Sent (Streamable.shortcode_request 2);
       Sent (Streamable.metadata_request (Lib:=Fixture.lib) (JStr "ab12c")
               "clip.mp4" 2 None);
       Stored transfer; Sent transcode]
    ∧ key transfer = "upload/ab12c"
    ∧ url transcode = "https://ajax.streamable.com/transcode/ab12c".
Proof.
  intros srv.
  destruct (upload_video_uses_one_shortcode (Lib:=Fixture.lib) srv
              (BytesIO [x00; x01]%byte) "clip.mp4" None Fixture.slot_doc
              {[ "accessKeyId" := JStr "AKIDEXAMPLE";
                 "secretAccessKey" := JStr "secret";
                 "sessionToken" := JStr "session" ]}
              {[ "token" := JStr "tr-1" ]}
              (JStr "ab12c") (JStr "AKIDEXAMPLE") (JStr "secret")
              (JStr "session") (JStr "tr-1"))
    as (transcode & Hrun & _ & _ & _ & _ & _ & _ & Hurl & _);
    try reflexivity.
  eexists _, transcode. rewrite Hrun. repeat split; assumption.
Defined.

(** ** More on the clip chains *)

Lemma contains_pure (x : JSON) (k : string) :
  {b | contains x k = Ret b} + {e | contains x k = Raise e}.
Proof.
  destruct x; cbn [contains];
    first [left; eexists; reflexivity | right; eexists; reflexivity].
Qed.

Lemma without_error_pure (x : JSON) :
  {b | without_error x = Ret b} + {e | without_error x = Raise e}.
Proof.
  unfold without_error.
  destruct (contains_pure x "error") as [[has ->]|[e ->]];
    [|right; eexists; reflexivity].
  cbn [mbind Prog_bind prog_bind].
  destruct has; cbn [negb]; [|left; eexists; reflexivity].
  destruct (getitem_pure x "error") as [[v ->]|[e ->]];
    [left|right]; eexists; reflexivity.
Qed.

Lemma ok_or_without_error_pure `{Lib : PyLib} (res : Response) (x : JSON) :
  {r | Streamable.ok_or_without_error res x = Ret r}
  + {e | Streamable.ok_or_without_error res x = Raise e}.
Proof.
  unfold Streamable.ok_or_without_error.
  destruct (ok res); [left; eexists; reflexivity|].
  destruct (await_json_pure res) as [[y ->]|[e ->]];
    [|right; eexists; reflexivity].
  cbn [mbind Prog_bind prog_bind].
  destruct (without_error_pure y) as [[c ->]|[e ->]];
    [left|right]; eexists; reflexivity.
Qed.

(** X8: [clip_streamja_video] never issues a transcode request: in every
    run its calls are an initial part of the extract request followed by
    the shortcode request, because the shortcode is read with
    [res.json()["shortcode"]], without [await]. *)
Theorem clip_streamja_never_transcodes `{Lib : PyLib} (srv : Server)
    (video_id : string) (mirror_title : option string) :
  let source := Streamja.base_url +:+ "/" +:+ video_id in
  (call srv (Streamable.clip_streamja_video video_id mirror_title)).1
  `prefix_of`
  [ Sent (Streamable.extract_request (JStr source));
    Sent (Streamable.clip_shortcode_request "generic" source video_id
            mirror_title) ].
Proof.
  intros source. unfold call, Streamable.clip_streamja_video.
  rewrite run_request. fold source.
  set (extract := Streamable.extract_request (JStr source)).
  assert (Hone : ∀ ev, [Sent extract] `prefix_of` [Sent extract; ev])
    by (intros ev; by exists [ev]).
  destruct (ok (srv [] extract)); [|apply Hone].
  destruct (await_json_pure (srv [] extract)) as [[x ->]|[e ->]];
    [|apply Hone].
  cbn [mbind Prog_bind prog_bind].
  destruct (without_error_pure x) as [[c ->]|[e ->]]; [|apply Hone].
  cbn [mbind Prog_bind prog_bind]. destruct c; [|apply Hone].
  destruct (getitem_pure x "url") as [[u ->]|[e ->]]; [|apply Hone].
  cbn [mbind Prog_bind prog_bind].
  destruct (getitem_pure x "headers") as [[h ->]|[e ->]]; [|apply Hone].
  cbn [mbind Prog_bind prog_bind].
  unfold Streamable.generate_streamja_clip_shortcode. fold source.
  change (prog_bind ?f (request ?rq)) with (request rq ≫= f).
  rewrite run_request. cbn [app].
  set (generate :=
         Streamable.clip_shortcode_request "generic" source video_id
           mirror_title).
  destruct (ok_or_without_error_pure (srv [Sent extract] generate) x)
    as [[[c y] ->]|[e ->]]; [|reflexivity].
  cbn [mbind Prog_bind prog_bind]. destruct c; reflexivity.
Qed.

(** X9: [clip_streamff_video] issues its lookup request and nothing
    else; it returns the lookup response when that is not ok and raises
    [TypeError] when it is, so a response it returns is never ok. *)
Theorem clip_streamff_never_clips `{Lib : PyLib} (srv : Server)
    (video_id : string) (mirror_title : option string) :
  let lookup := Streamable.streamff_lookup_request video_id in
  let result := call srv (Streamable.clip_streamff_video video_id mirror_title) in
  result.1 = [Sent lookup]
  ∧ (ok (srv [] lookup) = true → result.2 = Raised TypeError)
  ∧ (∀ res, result.2 = Returned res → res = srv [] lookup ∧ ok res = false).
Proof.
  intros lookup result. subst result.
  rewrite clip_streamff_stops_after_lookup. fold lookup. cbn [fst snd].
  split; [reflexivity|].
  destruct (ok (srv [] lookup)) eqn:Hok; split; try discriminate.
  - reflexivity.
  - intros res [= <-]. by split.
Qed.

Lemma clip_streamff_witness :
  let srv :=
    Fixture.scripted
      [Fixture.response 200 Fixture.empty
         (Some (JObj {[ "videoLink" := JStr "/uploads/abc123.mp4" ]}))] in
  (call srv (Streamable.clip_streamff_video (Lib:=Fixture.lib) "abc123"
               (Some "Mirror"))).2
  = Raised TypeError.
Proof.
  intros srv.
  apply (clip_streamff_never_clips (Lib:=Fixture.lib) srv "abc123"
           (Some "Mirror")).
  reflexivity.
Defined.

(** X10: in [clip_video], [clip_streamja_video] and
    [clip_streamwo_video] an extract response that is not ok is returned
    at once: the extract request is the only call, and the body of the
    response is not read. *)
Theorem clip_returns_failed_extract `{Lib : PyLib} (srv : Server)
    (video_id : string) (mirror_title : option string) :
  let extract_of (base : string) :=
    Streamable.extract_request (JStr (base +:+ "/" +:+ video_id)) in
  (ok (srv [] (extract_of Streamable.base_url)) = false →
   call srv (Streamable.clip_video video_id mirror_title)
   = ([Sent (extract_of Streamable.base_url)],
      Returned (srv [] (extract_of Streamable.base_url))))
  ∧ (ok (srv [] (extract_of Streamja.base_url)) = false →
     call srv (Streamable.clip_streamja_video video_id mirror_title)
     = ([Sent (extract_of Streamja.base_url)],
        Returned (srv [] (extract_of Streamja.base_url))))
  ∧ (ok (srv [] (extract_of Streamwo.base_url)) = false →
     call srv (Streamable.clip_streamwo_video video_id mirror_title)
     = ([Sent (extract_of Streamwo.base_url)],
        Returned (srv [] (extract_of Streamwo.base_url)))).
Proof.
  intros extract_of. repeat apply conj; intros Hok; unfold call.
  - unfold Streamable.clip_video. rewrite run_request.
    fold (extract_of Streamable.base_url). rewrite Hok. reflexivity.
  - unfold Streamable.clip_streamja_video. rewrite run_request.
    fold (extract_of Streamja.base_url). rewrite Hok. reflexivity.
  - unfold Streamable.clip_streamwo_video. rewrite run_request.
    fold (extract_of Streamwo.base_url). rewrite Hok. reflexivity.
Qed.

Lemma clip_failed_extract_witness :
  let reply := Fixture.response 429 "Too Many Requests" None in
  let srv := Fixture.scripted [reply] in
  call srv (Streamable.clip_video (Lib:=Fixture.lib) "abc123" None)
  = ([Sent (Streamable.extract_request (JStr "https://streamable.com/abc123"))],
     Returned reply)
  ∧ call srv (Streamable.clip_streamja_video (Lib:=Fixture.lib) "abc123" None)
    = ([Sent (Streamable.extract_request (JStr "https://streamja.com/abc123"))],
       Returned reply)
  ∧ call srv (Streamable.clip_streamwo_video (Lib:=Fixture.lib) "abc123" None)
    = ([Sent (Streamable.extract_request (JStr "https://streamwo.com/abc123"))],
       Returned reply).
Proof.
  intros reply srv.
  destruct (clip_returns_failed_extract (Lib:=Fixture.lib) srv "abc123" None)
    as (Hclip & Hja & Hwo).
  split; [|split].
  - apply Hclip. reflexivity.
  - apply Hja. reflexivity.
  - apply Hwo. reflexivity.
Defined.

(** Runs a clip chain up to its second test, given an ok extract response
    whose document [m] passes the first test and has [url] and [headers]. *)
Ltac run_to_second_test Hok Hjson Hclean Hurl Hheaders :=
  rewrite run_request, Hok; unfold await_json at 1; rewrite Hjson;
  cbn [mbind Prog_bind prog_bind];
  rewrite (without_error_clean _ Hclean);
  cbn [mbind Prog_bind prog_bind getitem];
  rewrite Hurl, Hheaders;
  cbn [mbind Prog_bind prog_bind];
  change (prog_bind ?f (request ?rq)) with (request rq ≫= f);
  rewrite run_request; cbn [app].

(** X11: in [clip_video], [clip_streamja_video] and [clip_streamwo_video],
    a shortcode response that is not ok and whose document has an [error]
    member other than [null] is returned; the extract and shortcode
    requests are the only calls. *)
Theorem clip_returns_reported_shortcode_error `{Lib : PyLib} (srv : Server)
    (video_id : string) (mirror_title : option string)
    (m m' : gmap string JSON) (shortcode_vid_url shortcode_vid_headers e : JSON) :
  m !! "error" = None ∨ m !! "error" = Some JNull →
  m !! "url" = Some shortcode_vid_url →
  m !! "headers" = Some shortcode_vid_headers →
  m' !! "error" = Some e → e ≠ JNull →
  let returned (chain : string → option string → Prog Response)
      (extractor base : string) :=
    let source := base +:+ "/" +:+ video_id in
    let extract := Streamable.extract_request (JStr source) in
    let generate :=
      Streamable.clip_shortcode_request extractor source video_id
        mirror_title in
    ok (srv [] extract) = true →
    json (srv [] extract) = Some (JObj m) →
    ok (srv [Sent extract] generate) = false →
    json (srv [Sent extract] generate) = Some (JObj m') →
    call srv (chain video_id mirror_title)
    = ([Sent extract; Sent generate], Returned (srv [Sent extract] generate)) in
  returned Streamable.clip_video "streamable" Streamable.base_url
  ∧ returned Streamable.clip_streamja_video "generic" Streamja.base_url
  ∧ returned Streamable.clip_streamwo_video "generic" Streamwo.base_url.
Proof.
  intros Hclean Hurl Hheaders Herr He returned. subst returned. cbv beta zeta.
  pose proof (without_error_reported m' e Herr He) as Hwe.
  repeat apply conj; intros Hok Hjson Hgen Hdoc; unfold call.
  - unfold Streamable.clip_video, Streamable.generate_streamable_clip_shortcode.
    run_to_second_test Hok Hjson Hclean Hurl Hheaders.
    unfold Streamable.ok_or_without_error, await_json. rewrite Hgen, Hdoc.
    cbn [mbind Prog_bind prog_bind]. rewrite Hwe. reflexivity.
  - unfold Streamable.clip_streamja_video,
      Streamable.generate_streamja_clip_shortcode.
    run_to_second_test Hok Hjson Hclean Hurl Hheaders.
    unfold Streamable.ok_or_without_error, await_json. rewrite Hgen, Hdoc.
    cbn [mbind Prog_bind prog_bind]. rewrite Hwe. reflexivity.
  - unfold Streamable.clip_streamwo_video,
      Streamable.generate_streamwo_clip_shortcode.
    run_to_second_test Hok Hjson Hclean Hurl Hheaders.
    unfold Streamable.ok_or_without_error, await_json. rewrite Hgen, Hdoc.
    cbn [mbind Prog_bind prog_bind]. rewrite Hwe. reflexivity.
Qed.

Lemma clip_reported_shortcode_error_witness :
  let refused :=
    Fixture.response 403 Fixture.empty (Some (JObj Fixture.extract_error_doc)) in
  let srv :=
    Fixture.scripted
      [Fixture.response 200 Fixture.empty (Some (JObj Fixture.extract_doc));
       refused] in
  call srv (Streamable.clip_video (Lib:=Fixture.lib) "abc123" (Some "Mirror"))
  = ([Sent (Streamable.extract_request (JStr "https://streamable.com/abc123"));
      Sent (Streamable.clip_shortcode_request "streamable"
              "https://streamable.com/abc123" "abc123" (Some "Mirror"))],
     Returned refused).
Proof.
  intros refused srv.
  destruct (clip_returns_reported_shortcode_error (Lib:=Fixture.lib) srv
              "abc123" (Some "Mirror") Fixture.extract_doc
              Fixture.extract_error_doc
              (JStr "https://cdn.example/abc123.mp4")
              (JObj {[ "Referer" := JStr "https://streamable.com/" ]})
              (JStr "Video not found"))
    as (Hclip & _); [by left|reflexivity|reflexivity|reflexivity|discriminate|].
  apply Hclip; reflexivity.
Defined.

(** X12: in [clip_video], [clip_streamja_video] and [clip_streamwo_video],
    an ok extract response whose document passes the error test but lacks
    [url] or [headers] makes the call raise [KeyError] for the first one
    of the two that is missing; no shortcode request is issued. *)
Theorem clip_raises_on_incomplete_extract `{Lib : PyLib} (srv : Server)
    (video_id : string) (mirror_title : option string) (m : gmap string JSON) :
  m !! "error" = None ∨ m !! "error" = Some JNull →
  m !! "url" = None ∨ m !! "headers" = None →
  let missing :=
    match m !! "url" with
    | Some _ => "headers"
    | None => "url"
    end in
  let raises (chain : string → option string → Prog Response) (base : string) :=
    let extract :=
      Streamable.extract_request (JStr (base +:+ "/" +:+ video_id)) in
    ok (srv [] extract) = true →
    json (srv [] extract) = Some (JObj m) →
    call srv (chain video_id mirror_title)
    = ([Sent extract], Raised (KeyError missing)) in
  raises Streamable.clip_video Streamable.base_url
  ∧ raises Streamable.clip_streamja_video Streamja.base_url
  ∧ raises Streamable.clip_streamwo_video Streamwo.base_url.
Proof.
  intros Hclean Hmiss missing raises. subst raises missing. cbv beta zeta.
  repeat apply conj; intros Hok Hjson; unfold call;
    unfold Streamable.clip_video, Streamable.clip_streamja_video,
      Streamable.clip_streamwo_video;
    rewrite run_request, Hok; unfold await_json; rewrite Hjson;
    cbn [mbind Prog_bind prog_bind];
    rewrite (without_error_clean _ Hclean);
    cbn [mbind Prog_bind prog_bind getitem];
    destruct (m !! "url") as [u|] eqn:Hurl;
    cbn [mbind Prog_bind prog_bind]; try reflexivity;
    (destruct Hmiss as [Hmiss|Hmiss]; [discriminate|]);
    rewrite Hmiss; reflexivity.
Qed.

Lemma clip_incomplete_extract_witness :
  let srv :=
    Fixture.scripted
      [Fixture.response 200 Fixture.empty (Some (JObj Fixture.shortcode_doc))] in
  call srv (Streamable.clip_video (Lib:=Fixture.lib) "abc123" None)
  = ([Sent (Streamable.extract_request (JStr "https://streamable.com/abc123"))],
     Raised (KeyError "url")).
Proof.
  intros srv.
  destruct (clip_raises_on_incomplete_extract (Lib:=Fixture.lib) srv "abc123"
              None Fixture.shortcode_doc) as (Hclip & _);
    [by left|by left|].
  apply Hclip; reflexivity.
Defined.

(** ** [Streamable.get_video] and the Open Graph tag *)

Lemma head_filter_below (p : Node → bool) (n : Node) :
  head (List.filter p (descendants n)) = first_match_below p n.
Proof.
  induction n as [s|nm at' cs IH] using Node_forall_ind.
  - cbn [descendants List.filter first_match_below].
    destruct (p (Text s)); reflexivity.
  - cbn [descendants List.filter first_match_below].
    destruct (p (Tag nm at' cs)); [reflexivity|].
    induction IH as [|c l' Hc _ IHl]; cbn [flat_map]; [reflexivity|].
    rewrite head_filter_app, Hc.
    destruct (first_match_below p c); [reflexivity|exact IHl].
Qed.

Lemma head_filter_descendants (p : Node → bool) (soup : list Node) :
  head (List.filter p (flat_map descendants soup)) = first_match p soup.
Proof.
  induction soup as [|c l' IH]; cbn [flat_map first_match]; [reflexivity|].
  rewrite head_filter_app, head_filter_below.
  destruct (first_match_below p c); [reflexivity|exact IH].
Qed.

Lemma tag_matches_secure_video (n : Node) :
  tag_matches "meta" {[ "property" := "og:video:secure_url" ]} n
  = is_secure_video_meta n.
Proof.
  destruct n as [s|nm at' cs]; [reflexivity|].
  unfold tag_matches, is_secure_video_meta.
  rewrite map_to_list_singleton. cbn [forallb fst snd].
  by rewrite andb_true_r.
Qed.

(** X13: after a successful page fetch, [Streamable.get_video] issues one
    second request, a [GET] of the [content] attribute of the first [meta]
    tag of the page whose [property] is [og:video:secure_url], when the
    page has such a tag, it has a [content] attribute, and the session
    takes that attribute as a URL; with no such tag the call raises
    [IndexError], with no [content] attribute it raises [KeyError], with
    a [content] the session does not take it raises [InvalidURL], and in
    these three cases the page request stays the only one. *)
Theorem streamable_get_video_requests_meta_content `{Lib : PyLib}
    (srv : Server) (video_id : string) :
  let page := Streamable.page_request video_id in
  ok (srv [] page) = true →
  call srv (Streamable.get_video video_id)
  = meta_outcome srv page (html_parser (text (srv [] page))).
Proof.
  intros page Hok. unfold call, Streamable.get_video.
  rewrite run_request. fold page. rewrite Hok. cbn [negb app].
  unfold meta_outcome. rewrite <- head_filter_descendants.
  unfold find_all.
  rewrite (List.filter_ext _ _ tag_matches_secure_video).
  destruct (List.filter is_secure_video_meta _) as [|t l]; [reflexivity|].
  cbn [head getitem0 mbind Prog_bind prog_bind].
  destruct t as [s|nm at' cs]; [reflexivity|].
  cbn [tag_getitem]. destruct (at' !! "content") as [src|]; [|reflexivity].
  cbn [mbind Prog_bind prog_bind]. unfold session_get.
  destruct (accepts_url src); reflexivity.
Qed.

Lemma streamable_get_video_witness :
  let srv :=
    Fixture.scripted [Fixture.response 200 OpenGraph.page None;
                      Fixture.response 200 Fixture.empty None] in
  call srv (Streamable.get_video (Lib:=OpenGraph.lib) "abc123")
  = ([Sent (Streamable.page_request "abc123");
      Sent (mkRequest GET "https://cdn.example/v.mp4" ∅ NoBody)],
     Returned (Fixture.response 200 Fixture.empty None)).
Proof.
  intros srv.
  rewrite (streamable_get_video_requests_meta_content (Lib:=OpenGraph.lib) srv
             "abc123"); reflexivity.
Defined.

(** ** Streamja and Streamff *)

(** X14: [Streamja.upload_video] with an ok shortcode response whose
    document is an object: when the document has an [error] member, even
    [null], the shortcode response is returned and nothing is uploaded;
    when it has none and no [shortId] either, the call raises [KeyError];
    when it has a [shortId] that the session takes as a query parameter,
    the file is posted with it; and when the session does not take the
    [shortId] (a [null], say) the call raises [TypeError] and nothing is
    posted. *)
Theorem streamja_upload_needs_clean_shortcode `{Lib : PyLib} (srv : Server)
    (video_content : list byte) (video_filename : string)
    (m : gmap string JSON) :
  let slot :=
    mkRequest POST "https://streamja.com/shortId.php" ∅
      (DataBody {[ "new" := JNum 1 ]}) in
  let upload (shortId : JSON) :=
    mkRequest POST "https://streamja.com/upload.php" {[ "shortId" := shortId ]}
      (FormBody [ mkField "file" (FileContent video_content)
                          (guess_type video_filename) (Some video_filename) ]) in
  ok (srv [] slot) = true →
  json (srv [] slot) = Some (JObj m) →
  call srv (Streamja.upload_video video_content video_filename)
  = match m !! "error", m !! "shortId" with
    | Some _, _ => ([Sent slot], Returned (srv [] slot))
    | None, None => ([Sent slot], Raised (KeyError "shortId"))
    | None, Some shortId =>
        if accepts_query shortId then
          ([Sent slot; Sent (upload shortId)],
           Returned (srv [Sent slot] (upload shortId)))
        else ([Sent slot], Raised TypeError)
    end.
Proof.
  intros slot upload Hok Hjson.
  unfold call, Streamja.upload_video, Streamja.generate_upload_shortcode.
  rewrite run_request.
  change (mkRequest POST (Streamja.base_url +:+ "/shortId.php") ∅
            (DataBody {[ "new" := JNum 1 ]})) with slot.
  rewrite Hok. unfold await_json. rewrite Hjson.
  cbn [mbind Prog_bind prog_bind contains].
  destruct (m !! "error"); cbn [negb]; [reflexivity|].
  cbn [getitem]. destruct (m !! "shortId") as [shortId|]; [|reflexivity].
  cbn [mbind Prog_bind prog_bind].
  destruct (accepts_query shortId); reflexivity.
Qed.

Lemma streamja_upload_witness :
  let slot :=
    mkRequest POST "https://streamja.com/shortId.php" ∅
      (DataBody {[ "new" := JNum 1 ]}) in
  let busy :=
    Fixture.response 200 Fixture.empty (Some (JObj {[ "error" := JNull ]})) in
  let void :=
    Fixture.response 200 Fixture.empty (Some (JObj {[ "shortId" := JNull ]})) in
  call (Fixture.scripted [busy])
       (Streamja.upload_video (Lib:=Fixture.lib) [] "clip.mp4")
  = ([Sent slot], Returned busy)
  ∧ call (Fixture.scripted [void])
         (Streamja.upload_video (Lib:=Fixture.lib) [] "clip.mp4")
    = ([Sent slot], Raised TypeError).
Proof.
  intros slot busy void. split.
  - rewrite (streamja_upload_needs_clean_shortcode (Lib:=Fixture.lib)
               (Fixture.scripted [busy]) [] "clip.mp4" {[ "error" := JNull ]});
      reflexivity.
  - rewrite (streamja_upload_needs_clean_shortcode (Lib:=Fixture.lib)
               (Fixture.scripted [void]) [] "clip.mp4" {[ "shortId" := JNull ]});
      reflexivity.
Defined.



(** ** JustStreamLive *)



Lemma run_starts_with {A} (srv : Server) (ev : Event) (p : Prog A) :
  take 1 (run srv [ev] p).1 = [ev].
Proof.
  destruct (run_extends srv p [ev]) as [k ->]. reflexivity.
Qed.

(** X17: for the peers Streamja, Streamwo and Streamable, the peer's own
    [get_video] first fetches the page URL of the video, the address of
    the site followed by the identifier; [JustStreamLive.mirror_*_video]
    posts exactly that URL as the form field [url] of its one request;
    and the matching [Streamable.clip_*] chain first asks the extract
    endpoint for exactly that URL, as the query parameter [url]. *)
Theorem mirror_and_clip_use_page_url `{Lib : PyLib} (srv : Server)
    (video_id : string) (mirror_title : option string) :
  let agree (page_url : string) (get_video mirror clip : Prog Response) :=
    (∃ rq, take 1 (call srv get_video).1 = [Sent rq]
           ∧ method rq = GET ∧ url rq = page_url)
    ∧ (∃ rq, call srv mirror = ([Sent rq], Returned (srv [] rq))
             ∧ method rq = POST
             ∧ url rq = "https://api.juststream.live/videos/upload-from-url"
             ∧ payload rq = DataBody {[ "url" := JStr page_url ]})
    ∧ (∃ rq, take 1 (call srv clip).1 = [Sent rq]
             ∧ method rq = GET
             ∧ url rq = "https://ajax.streamable.com/extract"
             ∧ params rq = {[ "url" := JStr page_url ]}) in
  agree ("https://streamja.com/" +:+ video_id)
        (Streamja.get_video video_id)
        (JustStreamLive.mirror_streamja_video video_id)
        (Streamable.clip_streamja_video video_id mirror_title)
  ∧ agree ("https://streamwo.com/" +:+ video_id)
          (Streamwo.get_video video_id)
          (JustStreamLive.mirror_streamwo_video video_id)
          (Streamable.clip_streamwo_video video_id mirror_title)
  ∧ agree ("https://streamable.com/" +:+ video_id)
          (Streamable.get_video video_id)
          (JustStreamLive.mirror_streamable_video video_id)
          (Streamable.clip_video video_id mirror_title).
Proof.
  intros agree. subst agree. cbv beta.
  repeat apply conj;
    try (eexists; split; [reflexivity|]; repeat split; fail);
    unfold call, Streamja.get_video, Streamwo.get_video,
      Streamable.get_video, Streamable.clip_video,
      Streamable.clip_streamja_video, Streamable.clip_streamwo_video;
    rewrite run_request;
    (eexists; split; [apply run_starts_with|]; repeat split).
Qed.

(** X18: in [clip_video], [clip_streamja_video] and [clip_streamwo_video],
    an ok extract response whose JSON document is not an object (a list,
    a string, a number, a boolean or [null]) makes the call raise
    [TypeError]; no shortcode request is issued. *)
Theorem clip_raises_on_non_object_extract `{Lib : PyLib} (srv : Server)
    (video_id : string) (mirror_title : option string) (x : JSON) :
  (∀ m, x ≠ JObj m) →
  let raises (chain : string → option string → Prog Response) (base : string) :=
    let extract :=
      Streamable.extract_request (JStr (base +:+ "/" +:+ video_id)) in
    ok (srv [] extract) = true →
    json (srv [] extract) = Some x →
    call srv (chain video_id mirror_title) = ([Sent extract], Raised TypeError) in
  raises Streamable.clip_video Streamable.base_url
  ∧ raises Streamable.clip_streamja_video Streamja.base_url
  ∧ raises Streamable.clip_streamwo_video Streamwo.base_url.
Proof.
  intros Hx raises. subst raises. cbv beta zeta.
  repeat apply conj; intros Hok Hjson; unfold call;
    unfold Streamable.clip_video, Streamable.clip_streamja_video,
      Streamable.clip_streamwo_video;
    rewrite run_request, Hok; unfold await_json; rewrite Hjson;
    cbn [mbind Prog_bind prog_bind app]; unfold without_error;
    (destruct x as [| | |s|l|m]; try reflexivity; [| |by destruct (Hx m)]);
    cbn [contains mbind Prog_bind prog_bind];
    match goal with
    | |- context [negb ?b] => destruct b; reflexivity
    end.
Qed.

Lemma clip_non_object_extract_witness :
  let srv :=
    Fixture.scripted
      [Fixture.response 200 Fixture.empty (Some (JArr [JStr "error"]))] in
  call srv (Streamable.clip_video (Lib:=Fixture.lib) "abc123" None)
  = ([Sent (Streamable.extract_request (JStr "https://streamable.com/abc123"))],
     Raised TypeError).
Proof.
  intros srv.
  destruct (clip_raises_on_non_object_extract (Lib:=Fixture.lib) srv "abc123"
              None (JArr [JStr "error"])) as (Hclip & _); [discriminate|].
  apply Hclip; reflexivity.
Defined.
